(** * Xray backup and exporter: a shallow embedding and its properties

    The development follows the two source files:
    - [xray_backup.py]: issue-id collection and batched metadata fetching;
    - [xray_exporter_app.py]: export, key confirmation, attachment
      reconciliation and upload.

    Python [str] values are modelled as [string] (sequences of 8-bit
    characters), Python dictionaries coming from JSON as association lists
    in insertion order, Python sets of strings as [gset string]. Calls to
    the issue tracker and to the test-tracking service are modelled by
    oracle functions that are section variables, and the requests a function
    issues are recorded in an explicit trace. *)

From Stdlib Require Import String Ascii List ZArith Lia Bool.
From stdpp Require Import base option list gmap strings pretty.

Open Scope string_scope.
Open Scope list_scope.

(** ** Python built-ins used by the sources *)

Module Py.

(** [range(start, stop, step)] for a positive [step]. *)
Definition range (start stop step : nat) : list nat :=
  map (fun k => start + k * step) (seq 0 ((stop - start + (step - 1)) / step)).

(** The slice [l[i:j]]; indices past the end are clamped, as Python does. *)
Definition slice {A} (i j : nat) (l : list A) : list A :=
  take (j - i) (drop i l).

(** [c.isdigit()] and [s.isdigit()] on 8-bit characters. *)
Definition is_digit (c : ascii) : bool :=
  (48 <=? nat_of_ascii c)%nat && (nat_of_ascii c <=? 57)%nat.

Fixpoint forallb_string (p : ascii -> bool) (s : string) : bool :=
  match s with
  | EmptyString => true
  | String c s' => p c && forallb_string p s'
  end.

Definition isdigit (s : string) : bool :=
  match s with
  | EmptyString => false
  | _ => forallb_string is_digit s
  end.

(** [int(s)] for a string of decimal digits. *)
Fixpoint int_acc (acc : N) (s : string) : N :=
  match s with
  | EmptyString => acc
  | String c s' => int_acc (10 * acc + (N_of_ascii c - 48))%N s'
  end.

Definition int (s : string) : N := int_acc 0%N s.

(** Characters are code points below 256. *)
Definition newline : ascii := ascii_of_nat 10.

(** [c.isspace()], which is also what [\s] matches and [strip()] removes. *)
Definition is_space (c : ascii) : bool :=
  let n := nat_of_ascii c in
  ((9 <=? n)%nat && (n <=? 13)%nat) || ((28 <=? n)%nat && (n <=? 32)%nat)
  || (n =? 133)%nat || (n =? 160)%nat.

(** [s.lstrip()], [s.rstrip()] and [s.strip()]. *)
Fixpoint lstrip (s : string) : string :=
  match s with
  | String c s' => if is_space c then lstrip s' else s
  | EmptyString => EmptyString
  end.

Fixpoint rstrip (s : string) : string :=
  match s with
  | String c s' =>
      match rstrip s' with
      | EmptyString => if is_space c then EmptyString else String c EmptyString
      | r => String c r
      end
  | EmptyString => EmptyString
  end.

Definition strip (s : string) : string := rstrip (lstrip s).

(** [s.upper()] on the letters a-z; other characters are left as they are. *)
Definition upper_char (c : ascii) : ascii :=
  let n := nat_of_ascii c in
  if (97 <=? n)%nat && (n <=? 122)%nat then ascii_of_nat (n - 32) else c.

Fixpoint upper (s : string) : string :=
  match s with
  | String c s' => String (upper_char c) (upper s')
  | EmptyString => EmptyString
  end.

(** [sub in s] for strings. *)
Fixpoint contains (sub s : string) : bool :=
  String.prefix sub s ||
  match s with
  | String _ s' => contains sub s'
  | EmptyString => false
  end.

(** [s.split(sep)] for a separator of one character. *)
Fixpoint split (sep : ascii) (s : string) : list string :=
  match s with
  | EmptyString => [EmptyString]
  | String c s' =>
      if (c =? sep)%char then EmptyString :: split sep s'
      else match split sep s' with
           | w :: ws => String c w :: ws
           | [] => [String c EmptyString]
           end
  end.

(** [sep.join(l)]. *)
Fixpoint join (sep : string) (l : list string) : string :=
  match l with
  | [] => ""
  | [x] => x
  | x :: l' => x +:+ sep +:+ join sep l'
  end.

End Py.


(** ** Replacement of the matches of a pattern, as [str.replace] and
    [re.sub] do it: the text is scanned from left to right, a match is
    replaced and the scan goes on behind it. *)

Module Re.

(** What a pattern does at one position: [m bol s] looks at the text [s]
    that starts there ([bol] tells whether a line begins there) and gives,
    when the pattern matches, the number of characters matched, at least
    one, and the text that replaces them. *)
Definition matcher : Type := bool -> string -> option (nat * string).

(** [skip] is the number of characters still to pass over, those of the
    match found last. *)
Fixpoint sub_from (m : matcher) (bol : bool) (skip : nat) (s : string) : string :=
  match s with
  | EmptyString => EmptyString
  | String c s' =>
      let bol' := (c =? Py.newline)%char in
      match skip with
      | S k => sub_from m bol' k s'
      | O =>
          match m bol s with
          | Some (n, r) => r +:+ sub_from m bol' (n - 1) s'
          | None => String c (sub_from m bol' 0 s')
          end
      end
  end.

Definition sub (m : matcher) (s : string) : string := sub_from m true 0 s.

(** A literal pattern [old], replaced by [new]. *)
Definition literal (old new : string) : matcher :=
  fun _ s => if String.prefix old s then Some (String.length old, new) else None.

(** The text up to the first [stop], when no line ends before it: what a
    lazy [(.*?)] followed by the character [stop] matches. *)
Fixpoint until_char (stop : ascii) (s : string) : option string :=
  match s with
  | EmptyString => None
  | String c s' =>
      if (c =? stop)%char then Some EmptyString
      else if (c =? Py.newline)%char then None
      else option_map (String c) (until_char stop s')
  end.

(** The same for a lazy [(.*?)] followed by the text [stop]. *)
Fixpoint until_text (stop : string) (s : string) : option string :=
  match s with
  | EmptyString => None
  | String c s' =>
      if String.prefix stop s then Some EmptyString
      else if (c =? Py.newline)%char then None
      else option_map (String c) (until_text stop s')
  end.

(** The number of leading characters of [s] that satisfy [p]: a greedy
    [[...]*]. *)
Fixpoint span (p : ascii -> bool) (s : string) : nat :=
  match s with
  | String c s' => if p c then S (span p s') else 0
  | EmptyString => 0
  end.

(** [s[n:]] *)
Fixpoint drop (n : nat) (s : string) : string :=
  match n, s with
  | S k, String _ s' => drop k s'
  | _, _ => s
  end.

End Re.

(** [s.replace(old, new)]. With an empty [old] Python puts [new] before
    every character and at the end. *)
Fixpoint interleave (new s : string) : string :=
  match s with
  | EmptyString => new
  | String c s' => new +:+ String c (interleave new s')
  end.

Definition str_replace (old new s : string) : string :=
  match old with
  | EmptyString => interleave new s
  | _ => Re.sub (Re.literal old new) s
  end.

(** ** JSON values as Python sees them after [json.load] *)

(** A number with a fraction or exponent is [JFloat m e], standing for
    m * 10^e. A dictionary is the list of its items in insertion order. *)
#[warnings="-register-all"]
Inductive json : Type :=
| JNull
| JBool (b : bool)
| JInt (z : Z)
| JFloat (m e : Z)
| JStr (s : string)
| JList (l : list json)
| JObj (kvs : list (string * json)).

(** The result of code that may raise: [None] is a raised exception. *)
Definition raises (A : Type) : Type := option A.

Module Json.

(** Truth value of a Python object, as [if x:] and [x or y] test it. *)
Definition truthy (v : json) : bool :=
  match v with
  | JNull => false
  | JBool b => b
  | JInt z => negb (z =? 0)%Z
  | JFloat m _ => negb (m =? 0)%Z
  | JStr s => negb (s =? "")%string
  | JList l => match l with [] => false | _ => true end
  | JObj kvs => match kvs with [] => false | _ => true end
  end.

(** [x or y] *)
Definition or (x y : json) : json := if truthy x then x else y.

(** Lookup of a key in a dictionary's items. *)
Fixpoint lookup (k : string) (kvs : list (string * json)) : option json :=
  match kvs with
  | [] => None
  | (k', v) :: kvs' => if (k =? k')%string then Some v else lookup k kvs'
  end.

(** [d[k] = v]: the value is replaced where the key is, or the item is
    added at the end. *)
Fixpoint store (k : string) (v : json) (kvs : list (string * json))
  : list (string * json) :=
  match kvs with
  | [] => [(k, v)]
  | (k', v') :: kvs' =>
      if (k =? k')%string then (k, v) :: kvs' else (k', v') :: store k v kvs'
  end.

(** [d.get(k, default)]; raises AttributeError when [d] is not a dictionary. *)
Definition get_default (k : string) (default : json) (d : json) : raises json :=
  match d with
  | JObj kvs => Some (match lookup k kvs with Some v => v | None => default end)
  | _ => None
  end.

(** [d.get(k)] *)
Definition get (k : string) (d : json) : raises json := get_default k JNull d.

(** The elements a [for] loop goes through; raises TypeError on a value
    that cannot be iterated. A string yields its characters, a dictionary
    its keys. *)
Definition iter (v : json) : raises (list json) :=
  match v with
  | JList l => Some l
  | JStr s => Some (map (fun c => JStr (String c "")) (list_ascii_of_string s))
  | JObj kvs => Some (map (fun kv => JStr (fst kv)) kvs)
  | _ => None
  end.

(** [str(v)]. What Python prints for floats, lists and dictionaries is
    left to [repr]. *)
Definition str (repr : json -> string) (v : json) : string :=
  match v with
  | JStr s => s
  | JInt z => pretty z
  | JBool true => "True"
  | JBool false => "False"
  | JNull => "None"
  | _ => repr v
  end.

(** [d[k]]; raises KeyError when the key is absent and TypeError when [d]
    is not a dictionary. *)
Definition getitem (k : string) (d : json) : raises json :=
  match d with
  | JObj kvs => lookup k kvs
  | _ => None
  end.

(** [d[k] = v]; raises TypeError when [d] is not a dictionary. *)
Definition set (k : string) (v : json) (d : json) : raises json :=
  match d with
  | JObj kvs => Some (JObj (store k v kvs))
  | _ => None
  end.

(** [x in c] for a string [x]: a substring of a string, an element of a
    list, a key of a dictionary; raises TypeError on anything else. *)
Definition str_in (x : string) (c : json) : raises bool :=
  match c with
  | JStr s => Some (Py.contains x s)
  | JList l => Some (existsb (fun v => match v with
                                       | JStr s => (x =? s)%string
                                       | _ => false
                                       end) l)
  | JObj kvs => Some (existsb (fun kv => (x =? fst kv)%string) kvs)
  | _ => None
  end.

(** Lists and dictionaries cannot be keys of a dictionary. *)
Definition hashable (v : json) : bool :=
  match v with
  | JList _ | JObj _ => false
  | _ => true
  end.

End Json.

#[global] Instance raises_ret : MRet raises := @Some.
#[global] Instance raises_bind : MBind raises := @option_bind.
#[global] Instance raises_fmap : FMap raises := @option_map.

(** A loop whose body may raise. *)
Fixpoint foldM {A B} (f : B -> A -> raises B) (b : B) (l : list A) : raises B :=
  match l with
  | [] => Some b
  | x :: l' => match f b x with Some b' => foldM f b' l' | None => None end
  end.

(** ** [xray_backup.py]: issue-id collection and batching *)

Module Backup.

(** A file of the backup directory: its name and the value [json.load]
    gives for it, [None] when the file is not well-formed JSON. *)
Record file := { name : string; content : option json }.

Section Collector.

(** What Python prints for floats, lists and dictionaries. *)
Variable repr : json -> string.

(** [internal_id = item.get("id"); if internal_id: ids.add(str(internal_id))] *)
Definition add_item (ids : gset string) (item : json) : raises (gset string) :=
  match Json.get "id" item with
  | Some internal_id =>
      Some (if Json.truthy internal_id
            then ids ∪ {[ Json.str repr internal_id ]} else ids)
  | None => None
  end.

(** [items = content.get('tests') or content.get('preconditions')
             or content.get('testPlans') or content.get('testSets') or []] *)
Definition items_of (content : json) : raises json :=
  match Json.get "tests" content, Json.get "preconditions" content,
        Json.get "testPlans" content, Json.get "testSets" content with
  | Some t, Some p, Some tp, Some ts =>
      Some (Json.or t (Json.or p (Json.or tp (Json.or ts (JList [])))))
  | _, _, _, _ => None
  end.

(** The body of the loop over files: load, select the items, add their ids. *)
Definition scan_file (ids : gset string) (f : file) : raises (gset string) :=
  match content f with
  | None => None
  | Some c =>
      match items_of c with
      | None => None
      | Some items =>
          match Json.iter items with
          | None => None
          | Some l => foldM add_item ids l
          end
      end
  end.

Definition patterns : list string :=
  ["tests*.json"; "preconditions*.json"; "testplans*.json"; "testsets*.json"].

(** [collect_jira_ids]. The directory is given by what [base_dir.glob]
    enumerates for a pattern, in the order it enumerates it. *)
Definition collect_jira_ids (glob : string -> list file) : raises (gset string) :=
  foldM (fun ids pattern => foldM scan_file ids (glob pattern)) ∅ patterns.

End Collector.

(** Two directory listings with the same content: the files may be
    enumerated in another order, and inside a file the items of a top-level
    list may appear in another order. *)
Inductive items_perm : json -> json -> Prop :=
| ip_list l l' : Permutation l l' -> items_perm (JList l) (JList l')
| ip_same v : items_perm v v.

Inductive file_perm : file -> file -> Prop :=
| fp_obj n kvs kvs' :
    Forall2 (fun kv kv' => fst kv = fst kv' /\ items_perm (snd kv) (snd kv'))
            kvs kvs' ->
    file_perm {| name := n; content := Some (JObj kvs) |}
              {| name := n; content := Some (JObj kvs') |}
| fp_same f : file_perm f f.

Definition listing_perm (l l' : list file) : Prop :=
  exists l'', Permutation l l'' /\ Forall2 file_perm l'' l'.

Definition batch_size : nat := 50.

(** [id_list = [int(x) for x in ids if x.isdigit()]]; [ids] is the set in
    its iteration order. *)
Definition id_list (ids : list string) : list N :=
  map Py.int (filter (fun x => Is_true (Py.isdigit x)) ids).

(** [total_batches = (len(id_list) + batch_size - 1) // batch_size] *)
Definition total_batches (id_list : list N) : nat :=
  (length id_list + batch_size - 1) / batch_size.

(** The batches the loop
    [for i in range(0, len(id_list), batch_size): batch = id_list[i:i+batch_size]]
    goes through, in order. *)
Definition batches (id_list : list N) : list (list N) :=
  map (fun i => Py.slice i (i + batch_size) id_list)
      (Py.range 0 (length id_list) batch_size).

(** [jql = f"id in ({', '.join(str(b) for b in batch)})"] *)
Definition jql_of_batch (batch : list N) : string :=
  "id in (" +:+ Py.join ", " (map pretty batch) +:+ ")".

(** The queries [fetch_jira_metadata] sends, one per batch. *)
Definition fetch_queries (ids : list string) : list string :=
  map jql_of_batch (batches (id_list ids)).

End Backup.

(** ** [xray_backup.py]: building the metadata mapping *)

Module Metadata.

Section Fetch.

(** What Python prints for floats, lists and dictionaries. *)
Variable repr : json -> string.

(** The answer of the tracker to the search with a query: status code and
    parsed body ([None] when the body is not JSON), or [None] when the
    request itself fails. *)
Variable search : string -> option (nat * option json).

(** [d.get(k, {}).get(name, default)] *)
Definition get_in (k name : string) (default : json) (d : json) : raises json :=
  match Json.get_default k (JObj []) d with
  | Some v => Json.get_default name default v
  | None => None
  end.

(** [(d.get(k) or {}).get("displayName", "")] *)
Definition display_name (k : string) (d : json) : raises json :=
  match Json.get k d with
  | Some v => Json.get_default "displayName" (JStr EmptyString) (Json.or v (JObj []))
  | None => None
  end.

(** The key and the entry stored for one issue of an answer. *)
Definition issue_entry (issue : json) : raises (string * json) :=
  issue_id ← Json.get "id" issue;
  fields ← Json.get_default "fields" (JObj []) issue;
  key ← Json.get_default "key" (JStr EmptyString) issue;
  summary ← Json.get_default "summary" (JStr EmptyString) fields;
  description ← Json.get_default "description" (JStr EmptyString) fields;
  status ← get_in "status" "name" (JStr EmptyString) fields;
  assignee ← display_name "assignee" fields;
  reporter ← display_name "reporter" fields;
  links ← Json.get_default "issuelinks" (JObj []) fields;
  issuetype ← get_in "issuetype" "name" (JStr EmptyString) fields;
  comments ← get_in "comment" "comments" JNull fields;
  Some (Json.str repr issue_id,
        JObj [("key", key); ("summary", summary); ("description", description);
              ("status", status); ("assignee", assignee); ("reporter", reporter);
              ("links", links); ("issuetype", issuetype); ("comments", comments)]).

(** The loop over the issues of one answer: an exception ends it, and
    what was stored before stays. *)
Fixpoint add_issues (metadata : list (string * json)) (issues : list json)
  : list (string * json) :=
  match issues with
  | [] => metadata
  | issue :: rest =>
      match issue_entry issue with
      | Some (issue_id, entry) => add_issues (Json.store issue_id entry metadata) rest
      | None => metadata
      end
  end.

(** The issues of a parsed answer. *)
Definition issues_of (data : json) : raises (list json) :=
  match Json.get_default "issues" (JList []) data with
  | Some v => Json.iter v
  | None => None
  end.

(** One batch: every failure is caught and leaves the mapping as it is. *)
Definition add_batch (metadata : list (string * json)) (batch : list N)
  : list (string * json) :=
  match search (Backup.jql_of_batch batch) with
  | Some (code, Some data) =>
      if (code =? 200)%nat then
        match issues_of data with
        | Some issues => add_issues metadata issues
        | None => metadata
        end
      else metadata
  | _ => metadata
  end.

(** [fetch_jira_metadata], for the ids in their order of iteration. *)
Definition fetch_jira_metadata (ids : list string) : list (string * json) :=
  fold_left add_batch (Backup.batches (Backup.id_list ids)) [].

End Fetch.

End Metadata.

(** ** [xray_backup.py]: waiting for the backup job *)

Module BackupJob.

(** How the wait ends: with the answer that says "successful", with an
    exception, or not at all as far as the answers are known. *)
Inductive waited :=
| Completed (result : json)
| Raised
| StillWorking.

Definition status_is (result : json) (text : string) : bool :=
  match Json.get "status" result with
  | Some (JStr s) => (s =? text)%string
  | _ => false
  end.

(** [response.raise_for_status()] raises for the codes from 400 to 599. *)
Definition is_error (code : nat) : bool := (400 <=? code)%nat && (code <? 600)%nat.

(** An answer that makes the loop sleep and ask again. *)
Definition is_working (answer : nat * option json) : bool :=
  match answer with
  | (code, Some result) => negb (is_error code) && status_is result "working"
  | (_, None) => false
  end.

(** [wait_for_backup], given the successive answers of the service to the
    status request (status code and parsed body, [None] when the body is
    not JSON): the number of requests made and how the wait ends. The
    loop has no bound; [StillWorking] says that every answer given was
    "working". *)
Fixpoint wait_for_backup (answers : list (nat * option json)) : nat * waited :=
  match answers with
  | [] => (0, StillWorking)
  | (code, body) :: rest =>
      if is_error code then (1, Raised)
      else
        match body with
        | None => (1, Raised)
        | Some result =>
            match Json.get "status" result with
            | None => (1, Raised)
            | Some _ =>
                if status_is result "successful" then (1, Completed result)
                else if status_is result "working" then
                  let '(n, w) := wait_for_backup rest in (S n, w)
                else (1, Raised)
            end
        end
  end.

End BackupJob.

(** ** [xray_exporter_app.py]: text sanitizing and the search query *)

Module Exporter.

(** The double quote and the backslash, as one-character texts. *)
Definition dquote : string := String (ascii_of_nat 34) EmptyString.
Definition backslash : string := String (ascii_of_nat 92) EmptyString.

(** Headings: [h], a digit from 1 to 6, a dot, then any white space. *)
Definition heading : Re.matcher := fun _ s =>
  match s with
  | String "h" (String d (String "." rest)) =>
      if (49 <=? nat_of_ascii d)%nat && (nat_of_ascii d <=? 54)%nat
      then Some (3 + Re.span Py.is_space rest, EmptyString)
      else None
  | _ => None
  end.

(** A delimiter, the shortest text up to the next delimiter on the same
    line, and that delimiter; [keep] tells whether the text between them
    stays (bold, italic) or goes (images). *)
Definition delimited (delim : ascii) (keep : bool) : Re.matcher := fun _ s =>
  match s with
  | String c rest =>
      if (c =? delim)%char then
        match Re.until_char delim rest with
        | Some g => Some (String.length g + 2, if keep then g else EmptyString)
        | None => None
        end
      else None
  | EmptyString => None
  end.

(** Monospace: two opening braces, the shortest text up to two closing
    braces on the same line. *)
Definition monospace : Re.matcher := fun _ s =>
  match s with
  | String "{" (String "{" rest) =>
      match Re.until_text "}}" rest with
      | Some g => Some (String.length g + 4, g)
      | None => None
      end
  | _ => None
  end.

(** Links: an opening bracket, a label up to the first bar, a target up to
    the first closing bracket, all on one line; the label stays. *)
Definition link : Re.matcher := fun _ s =>
  match s with
  | String "[" rest =>
      match Re.until_char "|" rest with
      | Some label =>
          match Re.until_char "]" (Re.drop (String.length label + 1) rest) with
          | Some target => Some (String.length label + String.length target + 3, label)
          | None => None
          end
      | None => None
      end
  | _ => None
  end.

(** List bullets: at the start of a line, one or more of the characters
    star, hash and hyphen, then a space. *)
Definition is_bullet (c : ascii) : bool :=
  (c =? "*")%char || (c =? "#")%char || (c =? "-")%char.

Definition bullets : Re.matcher := fun bol s =>
  if bol then
    let n := Re.span is_bullet s in
    if (1 <=? n)%nat && String.prefix " " (Re.drop n s)
    then Some (n + 1, EmptyString) else None
  else None.

(** Any single square bracket. *)
Definition bracket : Re.matcher := fun _ s =>
  match s with
  | String c _ =>
      if (c =? "[")%char || (c =? "]")%char then Some (1, EmptyString) else None
  | EmptyString => None
  end.

(** [strip_jira_wiki_markup]: the nine substitutions in the order of the
    source, then [strip()]. *)
Definition strip_jira_wiki_markup (text : string) : string :=
  let text := Re.sub heading text in
  let text := Re.sub (delimited "*" true) text in
  let text := Re.sub (delimited "_" true) text in
  let text := Re.sub monospace text in
  let text := Re.sub link text in
  let text := Re.sub (delimited "!" false) text in
  let text := Re.sub bullets text in
  let text := Re.sub (Re.literal (backslash +:+ backslash) (String Py.newline EmptyString)) text in
  let text := Re.sub bracket text in
  Py.strip text.

(** The query [find_jira_by_summary] builds. The value first given to
    [description_escaped] is overwritten by the next assignment. *)
Definition jql_of (summary description : string) : string :=
  let summary_escaped := str_replace dquote (backslash +:+ dquote) summary in
  let description_escaped := str_replace dquote (backslash +:+ dquote) description in
  let description_escaped := strip_jira_wiki_markup description in
  match Py.strip description with
  | EmptyString =>
      "summary ~ " +:+ dquote +:+ summary_escaped +:+ dquote
      +:+ " AND description IS EMPTY"
  | _ =>
      "summary ~ " +:+ dquote +:+ summary_escaped +:+ dquote
      +:+ " AND description ~ " +:+ dquote +:+ description_escaped +:+ dquote
  end.

(** *** Requests, messages and the code that issues them *)

Inductive level := Info | Warning | Error | Success.

(** What a run does that can be seen from outside: the requests to the
    issue tracker and to the test-tracking service, the file copies and the
    messages shown to the operator (given without their pictograms). *)
Inductive event :=
| Authenticate
| GetIssue (key : string)
| Search (jql : string)
| GetAttachment (att_id : string)
| CopyFile (src dst : string)
| PostAttachment (new_name : string)
| BulkImport (payload : list json)
| ImportStatus (job_id : json)
| Say (l : level) (text : string).

(** A computation gives the events it issued and its result, or the
    events it issued before it raised. *)
Definition run (A : Type) : Type := list event * raises A.

Definition ret {A} (a : A) : run A := ([], Some a).
Definition raise {A} : run A := ([], None).
Definition emit (e : event) : run unit := ([e], Some tt).
Definition lift {A} (r : raises A) : run A := ([], r).

Definition bind {A B} (c : run A) (k : A -> run B) : run B :=
  match c with
  | (t, Some a) => let '(t', r) := k a in (t ++ t', r)
  | (t, None) => (t, None)
  end.

#[global] Instance run_ret : MRet run := @ret.
#[global] Instance run_bind : MBind run := fun A B k c => bind c k.

Definition trace {A} (c : run A) : list event := fst c.
Definition result {A} (c : run A) : raises A := snd c.

(** The issue tracker, as far as the exporter looks at it: the status code
    of the GET of an issue by key, and the keys of the issues a search
    returns ([None] when the request fails). *)
Record tracker := {
  issue_status : string -> nat;
  search_issues : string -> option (list string)
}.

(** Every double quote of [s] stands right behind a backslash; [behind]
    tells whether the character before [s] is a backslash. *)
Fixpoint quotes_escaped (behind : bool) (s : string) : bool :=
  match s with
  | EmptyString => true
  | String c s' =>
      if (c =? ascii_of_nat 34)%char then behind && quotes_escaped false s'
      else quotes_escaped (c =? ascii_of_nat 92)%char s'
  end.

(** No character of [s] satisfies [p]. *)
Fixpoint free_of (p : ascii -> bool) (s : string) : bool :=
  match s with
  | EmptyString => true
  | String c s' => negb (p c) && free_of p s'
  end.

Definition is_bracket (c : ascii) : bool := (c =? "[")%char || (c =? "]")%char.

(** The query as the specification words it: both inputs sanitized, that
    is markup stripped and quotes escaped. *)
Definition sanitize_spec (text : string) : string :=
  str_replace dquote (backslash +:+ dquote) (strip_jira_wiki_markup text).

Definition jql_spec (summary description : string) : string :=
  match Py.strip description with
  | EmptyString =>
      "summary ~ " +:+ dquote +:+ sanitize_spec summary +:+ dquote
      +:+ " AND description IS EMPTY"
  | _ =>
      "summary ~ " +:+ dquote +:+ sanitize_spec summary +:+ dquote
      +:+ " AND description ~ " +:+ dquote +:+ sanitize_spec description +:+ dquote
  end.

(** *** The confirmation of issue keys *)

(** [st.session_state], as far as the exporter uses it. *)
Record session := {
  xray_token : option string;
  selected_keys : option (list string);
  confirm_index : nat;
  Confirmed : bool;
  Automatic_button_clicked : bool;
  test_results : list json
}.

Definition with_results (st : session) (index : nat) (results : list json) : session :=
  {| xray_token := xray_token st; selected_keys := selected_keys st;
     confirm_index := index; Confirmed := Confirmed st;
     Automatic_button_clicked := Automatic_button_clicked st;
     test_results := results |}.

Definition with_confirmed (st : session) : session :=
  {| xray_token := xray_token st; selected_keys := selected_keys st;
     confirm_index := confirm_index st; Confirmed := true;
     Automatic_button_clicked := Automatic_button_clicked st;
     test_results := test_results st |}.

(** The buttons of the manual wizard. A run of the script is started by
    one action of the operator, so at most one button is seen as clicked;
    the text typed in the input stays from run to run. *)
Inductive button := AcceptMatch | CreateNew | Next.

Record operator := { manual_input : string; clicked : option button }.

Definition is_clicked (u : operator) (b : button) : bool :=
  match clicked u, b with
  | Some AcceptMatch, AcceptMatch | Some CreateNew, CreateNew | Some Next, Next => true
  | _, _ => false
  end.

Section Reconciler.

(** What Python prints for floats, lists and dictionaries. *)
Variable repr : json -> string.
Variable jira : tracker.

(** [find_jira_by_summary]; [summary.replace] and [description.replace]
    raise AttributeError on a value that is not a string. *)
Definition find_jira_by_summary (summary description : json) : run (list string) :=
  match summary, description with
  | JStr summary, JStr description =>
      let jql := jql_of summary description in
      emit (Search jql);;
      match search_issues jira jql with
      | Some keys => mret keys
      | None => emit (Say Info "Error querying JIRA");; mret []
      end
  | _, _ => raise
  end.

(** [current_key.split("-")[0] if "-" in current_key else ""] *)
Definition project_prefix_of (current_key : json) : raises string :=
  match Json.str_in "-" current_key with
  | Some true =>
      match current_key with
      | JStr k => Some (hd EmptyString (Py.split "-" k))
      | _ => None
      end
  | Some false => Some EmptyString
  | None => None
  end.

(** [test_data["fields"]["project"] = {"key": project_prefix}] *)
Definition set_project (project_prefix : string) (test_data : json) : raises json :=
  match Json.getitem "fields" test_data with
  | Some fields =>
      match Json.set "project" (JObj [("key", JStr project_prefix)]) fields with
      | Some fields' => Json.set "fields" fields' test_data
      | None => None
      end
  | None => None
  end.

(** The GET of an issue by key: whether it answers 200. *)
Definition key_exists (key : string) : run bool :=
  emit (GetIssue key);; mret (issue_status jira key =? 200)%nat.

(** The test under the cursor and what the run reads from it. *)
Definition read_test (test_data : json) : raises (json * json * json) :=
  match Json.get_default "key" (JStr EmptyString) test_data,
        Json.get_default "fields" (JObj []) test_data with
  | Some current_key, Some fields =>
      match Json.get_default "summary" (JStr EmptyString) fields,
            Json.get_default "description" (JStr EmptyString) fields with
      | Some summary, Some description => Some (current_key, summary, description)
      | _, _ => None
      end
  | _, _ => None
  end.

(** One run of [check_and_confirm_test_keys] in automatic mode, once
    Start has been clicked. The dictionary [test_data] is the one held in
    the list of the session, so what is assigned to it is seen there. *)
Definition confirm_automatic (st : session) : run session :=
  let index := confirm_index st in
  let results := test_results st in
  match results !! index with
  | None => mret (if Confirmed st then st else with_confirmed st)
  | Some test_data =>
      '(current_key, summary, description) ← lift (read_test test_data);
      valid ← (if Json.truthy current_key
               then key_exists (Json.str repr current_key) else mret false);
      if valid : bool then
        emit (Say Info ("Existing key valid: " +:+ Json.str repr current_key));;
        mret (with_results st (index + 1) results)
      else
        matches ← find_jira_by_summary summary description;
        test_data' ←
          match matches with
          | m :: _ =>
              td ← lift (Json.set "key" (JStr m) test_data);
              emit (Say Info ("Automatically assigned matched key: " +:+ m));;
              mret td
          | [] =>
              project_prefix ← lift (project_prefix_of current_key);
              td ← lift (Json.set "key" (JStr EmptyString) test_data);
              match project_prefix with
              | EmptyString =>
                  emit (Say Error "No match and cannot detect project prefix. Issue might not be created.");;
                  mret td
              | _ =>
                  td' ← lift (set_project project_prefix td);
                  emit (Say Warning ("No match. Will create new issue in project '"
                                     +:+ project_prefix +:+ "'"));;
                  mret td'
              end
          end;
        mret (with_results st (index + 1) (<[index := test_data']> results))
  end.

(** One run in manual mode, for what the operator did to start it. *)
Definition confirm_manual (u : operator) (st : session) : run session :=
  let index := confirm_index st in
  let results := test_results st in
  match results !! index with
  | None => mret (if Confirmed st then st else with_confirmed st)
  | Some test_data =>
      '(current_key, summary, description) ← lift (read_test test_data);
      if Json.truthy current_key then
        valid ← key_exists (Json.str repr current_key);
        td1 ←
          (if valid : bool then
             emit (Say Success ("Test key " +:+ Json.str repr current_key
                                +:+ " exists in Jira."));;
             mret test_data
           else
             emit (Say Info "Test key is missing or not found in Jira. Searching by summary/description...");;
             matches ← find_jira_by_summary summary description;
             match matches with
             | match_key :: _ =>
                 if is_clicked u AcceptMatch
                 then lift (Json.set "key" (JStr match_key) test_data)
                 else mret test_data
             | [] =>
                 emit (Say Warning "No Matching key found, assing the key manually or create new key");;
                 mret test_data
             end);
        let manual_key := Py.upper (manual_input u) in
        td2 ←
          match manual_key with
          | EmptyString => mret td1
          | _ =>
              check ← key_exists manual_key;
              if check : bool then
                td ← lift (Json.set "key" (JStr manual_key) td1);
                emit (Say Success ("Valid Jira key set: " +:+ manual_key));;
                mret td
              else
                emit (Say Error "This Jira key does not exist.");;
                if is_clicked u CreateNew then
                  project_prefix ← lift (project_prefix_of current_key);
                  (match project_prefix with
                   | EmptyString =>
                       emit (Say Error "Cannot detect project prefix from current key. Please check the format.")
                   | _ => mret tt
                   end);;
                  td ← lift (Json.set "key" (JStr EmptyString) td1);
                  td' ← lift (set_project project_prefix td);
                  emit (Say Success ("New test will be created in project " +:+ project_prefix));;
                  mret td'
                else mret td1
          end;
        mret (with_results st (if is_clicked u Next then index + 1 else index)
                           (<[index := td2]> results))
      else mret st
  end.

End Reconciler.

(** *** Attachment markers *)

(** The characters of an attachment id: a to f, the digits and the hyphen. *)
Definition is_id_char (c : ascii) : bool :=
  let n := nat_of_ascii c in
  ((97 <=? n)%nat && (n <=? 102)%nat) || ((48 <=? n)%nat && (n <=? 57)%nat)
  || (n =? 45)%nat.

Definition marker_open : string := "!xray-attachment://".

(** The marker pattern at one position: the opening, an id of one or more
    id characters (as many as there are), then either an exclamation mark,
    or a bar, a label without exclamation mark, and an exclamation mark.
    Gives the id and the number of characters matched. *)
Definition marker_at (s : string) : option (string * nat) :=
  if String.prefix marker_open s then
    let rest := Re.drop (String.length marker_open) s in
    let n := Re.span is_id_char rest in
    match n with
    | O => None
    | _ =>
        match Re.drop n rest with
        | String "!" _ =>
            Some (String.substring 0 n rest, String.length marker_open + n + 1)
        | String "|" label =>
            let k := Re.span (fun c => negb (c =? "!")%char) label in
            match Re.drop k label with
            | String "!" _ =>
                Some (String.substring 0 n rest,
                      String.length marker_open + n + 1 + k + 1)
            | _ => None
            end
        | _ => None
        end
    end
  else None.

(** [re.findall] of the marker pattern: the ids of the matches met from
    left to right, the scan going on behind each match. *)
Fixpoint findall_markers (skip : nat) (s : string) : list string :=
  match s with
  | EmptyString => []
  | String _ s' =>
      match skip with
      | S k => findall_markers k s'
      | O =>
          match marker_at s with
          | Some (att_id, n) => att_id :: findall_markers (n - 1) s'
          | None => findall_markers 0 s'
          end
      end
  end.

(** [extract_xray_attachment_ids] *)
Definition extract_xray_attachment_ids (description_text : string) : list string :=
  findall_markers 0 description_text.

(** *** Missing attachments *)

(** A loop whose body issues events and may raise. *)
Fixpoint fold_run {A B} (f : B -> A -> run B) (b : B) (l : list A) : run B :=
  match l with
  | [] => mret b
  | x :: l' => b' ← f b x; fold_run f b' l'
  end.

(** The test-tracking service: the status code of the GET of an
    attachment, the answer to the upload of a file under a name (status
    code and parsed body, [None] when the body is not JSON), the answer to
    the bulk import of a payload (status code and parsed body), the answer
    to the n-th GET of the import status. *)
Record xray_service := {
  attachment_status : string -> nat;
  post_attachment : string -> nat * option json;
  post_bulk : list json -> nat * option json;
  import_status : nat -> nat * option json
}.

(** The machine the exporter runs on: [os.path.join], and whether the
    copy of one file to another path succeeds. *)
Record host := {
  path_join : string -> string -> string;
  copy_ok : string -> string -> bool
}.

Section Attachments.

Variable repr : json -> string.
Variable xray : xray_service.
Variable os : host.



Definition step_fields : list string := ["action"; "data"; "result"].




End Attachments.

(** *** Upload of the missing attachments and update of the markers *)

Section Upload.

Variable repr : json -> string.
Variable xray : xray_service.
Variable os : host.

(** What happens inside [try] for one id, the paths being known: the
    files that exist afterwards and the new id to record, if any. An
    exception is caught and reported. *)
Definition copy_and_post (fs : gset string) (old_id new_name original_path new_path : string)
  : run (gset string * option json) :=
  if bool_decide (original_path ∈ fs) then
    emit (CopyFile original_path new_path);;
    if negb (original_path =? new_path)%string && copy_ok os original_path new_path then
      let fs' := fs ∪ {[ new_path ]} in
      emit (Say Info ("Uploading " +:+ old_id +:+ " as " +:+ new_name +:+ "..."));;
      emit (PostAttachment new_name);;
      let '(code, body) := post_attachment xray new_name in
      if (code =? 200)%nat then
        match body with
        | Some body =>
            match Json.get "id" body with
            | Some new_id => mret (fs', Some new_id)
            | None => emit (Say Error ("Error copying " +:+ old_id));; mret (fs', None)
            end
        | None => emit (Say Error ("Error copying " +:+ old_id));; mret (fs', None)
        end
      else mret (fs', None)
    else
      emit (Say Error ("Error copying " +:+ old_id));; mret (fs, None)
  else mret (fs, None).

(** The body of the loop of [upload_attachments_from_backup], on the
    mapping built so far and the files that exist. The message for an id
    without metadata is given without the printed database. *)
Definition upload_one (backup_dir : string) (attachments_database : list (string * json))
    (acc : list (string * json) * gset string) (old_id : string)
  : run (list (string * json) * gset string) :=
  let '(uploaded, fs) := acc in
  match Json.lookup old_id attachments_database with
  | Some entry =>
      new_name ← lift (Json.getitem "filename" entry);
      match new_name with
      | JStr new_name =>
          let original_path := path_join os backup_dir old_id in
          let new_path := path_join os backup_dir new_name in
          '(fs', new_id) ← copy_and_post fs old_id new_name original_path new_path;
          match new_id with
          | Some new_id => mret (Json.store old_id new_id uploaded, fs')
          | None => mret (uploaded, fs')
          end
      | _ => raise
      end
  | None =>
      emit (Say Error ("Error not exist " +:+ old_id));; mret (uploaded, fs)
  end.

(** [upload_attachments_from_backup]: the mapping and the files that
    exist afterwards. *)
Definition upload_attachments_from_backup (missing_ids : list string)
    (backup_dir : string) (attachments_database : list (string * json))
    (fs : gset string) : run (list (string * json) * gset string) :=
  emit (Say Info "Uploading missing attachments");;
  '(uploaded, fs') ← fold_run (upload_one backup_dir attachments_database) ([], fs) missing_ids;
  emit (Say Success ("Uploading attachments completed, uploaded "
                     +:+ pretty (length uploaded) +:+ " attachments"));;
  mret (uploaded, fs').

(** The replacements of one field: [content.replace] raises
    AttributeError on a value that is not a string. *)
Definition remap_content (uploaded_mapping : list (string * json)) (content : json)
  : raises json :=
  foldM (fun content '(old_id, new_id) =>
           match content with
           | JStr text =>
               Some (JStr (str_replace ("xray-attachment://" +:+ old_id)
                                       ("xray-attachment://" +:+ Json.str repr new_id)
                                       text))
           | _ => None
           end)
        content uploaded_mapping.

Definition remap_step (uploaded_mapping : list (string * json)) (step : json) : raises json :=
  foldM (fun step field =>
           match Json.get_default field (JStr EmptyString) step with
           | Some content =>
               match remap_content uploaded_mapping content with
               | Some content' => Json.set field content' step
               | None => None
               end
           | None => None
           end)
        step step_fields.

(** One test: its steps are changed in place, so a test without the key
    "steps", or whose "steps" has nothing to go through, stays as it is. *)
Definition remap_test (uploaded_mapping : list (string * json)) (test : json) : raises json :=
  match Json.get_default "steps" (JList []) test with
  | Some (JList steps) =>
      match mapM (remap_step uploaded_mapping) steps with
      | Some steps' =>
          match Json.getitem "steps" test with
          | Some _ => Json.set "steps" (JList steps') test
          | None => Some test
          end
      | None => None
      end
  | Some (JStr EmptyString) | Some (JObj []) => Some test
  | _ => None
  end.

(** [update_attachments_with_new_ids] *)
Definition update_attachments_with_new_ids (data : list json)
    (uploaded_mapping : list (string * json)) : raises (list json) :=
  mapM (remap_test uploaded_mapping) data.

End Upload.

(** *** The bulk import and the polling of its status *)

Section BulkImportJob.

Variable xray : xray_service.

(** [upload_to_xray], the token being at hand: success flag, message (the
    text of a failed answer is not modelled) and job id. *)
Definition upload_to_xray (json_data : list json) : run (bool * string * json) :=
  emit (BulkImport json_data);;
  let '(code, body) := post_bulk xray json_data in
  if negb ((code =? 200)%nat || (code =? 202)%nat) then
    mret (false, "Upload failed", JNull)
  else
    match body with
    | Some body =>
        job_id ← lift (Json.get "jobId" body);
        mret (true, "Upload submitted", job_id)
    | None => raise
    end.

Definition is_status (status : json) (text : string) : bool :=
  match status with
  | JStr s => (s =? text)%string
  | _ => false
  end.

(** [check_upload_status] at the n-th request: message and whether the
    answer is final. *)
Definition check_upload_status (job_id : json) (n : nat) : run (string * bool) :=
  emit (ImportStatus job_id);;
  let '(code, body) := import_status xray n in
  if (code =? 200)%nat then
    match body with
    | Some data =>
        status ← lift (Json.get "status" data);
        if is_status status "successful" then mret ("Export Completed", true)
        else if is_status status "failed" then mret ("Export Failed", true)
        else if is_status status "partially_successful" then mret ("Partially Successful", true)
        else if is_status status "unsuccessful" then mret ("Export unsuccessful", true)
        else mret ("Export Status: Still In Progress", false)
    | None => raise
    end
  else mret ("FATAL XRAY NOT RESPONDING", true).

(** The loop [for _ in range(100)] of the script after a successful
    submission: [remaining] turns are left, [n] requests were made. *)
Fixpoint poll (job_id : json) (remaining n : nat) : run unit :=
  match remaining with
  | O => mret tt
  | S r =>
      '(status_msg, is_final) ← check_upload_status job_id n;
      emit (Say Info status_msg);;
      if is_final : bool then mret tt else poll job_id r (S n)
  end.

Definition poll_upload (job_id : json) : run unit := poll job_id 100 0.

End BulkImportJob.

(** The manual wizard run again and again, once for each action of the
    operator. *)
Definition manual_runs (repr : json -> string) (jira : tracker)
    (actions : list operator) (st : session) : run session :=
  fold_run (fun st u => confirm_manual repr jira u st) st actions.

(** *** The export of the selected tests *)

Section ExportTables.

Variable repr : json -> string.

(** The items of [jira_metadata]; [.items()] raises on a value that is
    not a dictionary. *)
Definition items_of_dict (d : json) : raises (list (string * json)) :=
  match d with
  | JObj kvs => Some kvs
  | _ => None
  end.

(** [key_to_id]: for each item whose metadata has a truthy "key", that
    key is associated with the id, a later item replacing an earlier one
    with the same key. A key that is a list or a dictionary raises
    TypeError; a key that is not a string is left out, since the
    dictionary is only looked up with strings. *)
Definition key_to_id_of (items : list (string * json)) : raises (list (string * json)) :=
  foldM (fun acc '(tid, meta) =>
           match Json.get "key" meta with
           | Some key =>
               if Json.truthy key then
                 match key with
                 | JStr k => Some (Json.store k (JStr tid) acc)
                 | _ => if Json.hashable key then Some acc else None
                 end
               else Some acc
           | None => None
           end)
        [] items.

(** [id_to_test]: the tests whose "id" is not None, by the text of the id. *)
Definition id_to_test_of (all_tests : list json) : raises (list (string * json)) :=
  foldM (fun acc test =>
           match Json.get "id" test with
           | Some JNull => Some acc
           | Some id => Some (Json.store (Json.str repr id) test acc)
           | None => None
           end)
        [] all_tests.

(** [jira_metadata.get(k, {})] for a key that may be any value. *)
Definition metadata_of (items : list (string * json)) (k : json) : raises json :=
  if Json.hashable k then
    Some (match k with
          | JStr s => match Json.lookup s items with Some m => m | None => JObj [] end
          | _ => JObj []
          end)
  else None.

(** [[meta.get("key", "") for meta in metas if "key" in meta]] *)
Fixpoint keys_of_metas (metas : list json) : raises (list json) :=
  match metas with
  | [] => Some []
  | meta :: metas' =>
      match Json.str_in "key" meta with
      | Some true =>
          match Json.get_default "key" (JStr EmptyString) meta, keys_of_metas metas' with
          | Some k, Some ks => Some (k :: ks)
          | _, _ => None
          end
      | Some false => keys_of_metas metas'
      | None => None
      end
  end.

(** [[ds for ds in flattened_testsets if test_id in ds.get("tests", [])]] *)
Fixpoint linked_testsets_of (test_id : string) (flattened_testsets : list json)
  : raises (list json) :=
  match flattened_testsets with
  | [] => Some []
  | ds :: rest =>
      match Json.get_default "tests" (JList []) ds with
      | Some tests =>
          match Json.str_in test_id tests, linked_testsets_of test_id rest with
          | Some true, Some l => Some (ds :: l)
          | Some false, Some l => Some l
          | _, _ => None
          end
      | None => None
      end
  end.

(** The step dictionaries built from the steps of a test. *)
Definition export_step (s : json) : raises json :=
  match Json.get_default "action" (JStr EmptyString) s,
        Json.get_default "data" (JStr EmptyString) s,
        Json.get_default "result" (JStr EmptyString) s with
  | Some a, Some d, Some r => Some (JObj [("action", a); ("data", d); ("result", r)])
  | _, _, _ => None
  end.

End ExportTables.

Section ExportTests.

Variable repr : json -> string.

(** "Cucumber" when the test has a truthy "cucumber", else "Generic" when
    it has a truthy "generic", else "Manual". *)
Definition testtype_of (test : json) : raises string :=
  match Json.get_default "cucumber" (JStr EmptyString) test,
        Json.get_default "generic" (JStr EmptyString) test with
  | Some c, Some g =>
      Some (if Json.truthy c then "Cucumber"
            else if Json.truthy g then "Generic" else "Manual")
  | _, _ => None
  end.

(** The body of the loop of [export_to_xray_format] for a key whose test
    was found: the dictionary appended to [exported]. *)
Definition export_test (items : list (string * json)) (flattened_testsets : list json)
    (key test_id : string) (test : json) : raises json :=
  meta ← metadata_of items (JStr test_id);
  testtype ← testtype_of test;
  steps ← Json.get_default "steps" (JList []) test;
  steps ← Json.iter steps;
  steps ← mapM export_step steps;
  type ← Json.get_default "type" (JStr EmptyString) test;
  generic ← Json.get_default "generic" (JStr EmptyString) test;
  cucumber ← Json.get_default "cucumber" (JStr EmptyString) test;
  cucumberType ← Json.get_default "cucumberType" (JStr EmptyString) test;
  id ← Json.get_default "id" (JStr EmptyString) test;
  testVersionId ← Json.get_default "testVersionId" (JStr EmptyString) test;
  summary ← Json.get_default "summary" (JStr EmptyString) meta;
  description ← Json.get_default "description" (JStr EmptyString) meta;
  issuetype ← Json.get_default "issuetype" (JStr EmptyString) meta;
  let test_data :=
    [("key", JStr key); ("type", type); ("generic", generic); ("cucumber", cucumber);
     ("cucumberType", cucumberType); ("id", id); ("testVersionId", testVersionId);
     ("fields", JObj [("summary", summary); ("description", description)]);
     ("steps", JList steps); ("xray_issue_type", issuetype);
     ("xray_testtype", JStr testtype)] in
  pre_ids ← Json.get_default "preConditionTargetIssueIds" (JList []) test;
  pre_ids ← Json.iter pre_ids;
  meta_preconditions ← mapM (metadata_of items) pre_ids;
  precondition_keys ← keys_of_metas meta_preconditions;
  let test_data := Json.store "xray_preconditions" (JList precondition_keys) test_data in
  linked_testsets ← linked_testsets_of test_id flattened_testsets;
  linked_testsets_ids ← mapM (Json.getitem "id") linked_testsets;
  meta_testsets ← mapM (metadata_of items) linked_testsets_ids;
  testsets_keys ← keys_of_metas meta_testsets;
  Some (JObj (match testsets_keys with
              | [] => test_data
              | _ => Json.store "xray_test_sets" (JList testsets_keys) test_data
              end)).

(** One turn of the loop: nothing is appended for a key without an id in
    [key_to_id], with an empty id, or with an id that no test has. *)
Definition export_one (items key_to_id id_to_test : list (string * json))
    (flattened_testsets : list json) (key : string) : raises (option json) :=
  match Json.lookup key key_to_id with
  | Some (JStr test_id) =>
      match test_id with
      | EmptyString => Some None
      | _ =>
          match Json.lookup test_id id_to_test with
          | Some test => Some <$> export_test items flattened_testsets key test_id test
          | None => Some None
          end
      end
  | _ => Some None
  end.

(** [export_to_xray_format]. The token asked for first is not used, and
    neither are the datasets and the test plans. *)
Definition export_to_xray_format (selected_keys : list string) (all_tests : list json)
    (jira_metadata : json) (flattened_datasets flattened_testplans flattened_testsets : list json)
  : raises (list json) :=
  items ← items_of_dict jira_metadata;
  key_to_id ← key_to_id_of items;
  id_to_test ← id_to_test_of repr all_tests;
  exported ← mapM (export_one items key_to_id id_to_test flattened_testsets) selected_keys;
  Some (omap id exported).

(** [generate_datasets], as the assignments [dataset_per_test[key] =
    linked_dataset] it makes, in order. The set of the two ids cannot be
    built from a list or a dictionary. *)
Definition dataset_matches (test_id test_version_id : json) (ds : json) : raises bool :=
  match Json.get "testIssueId" ds with
  | Some v =>
      if Json.hashable test_id && Json.hashable test_version_id then
        let s := Json.str repr v in
        Some (match test_id with JStr a => (s =? a)%string | _ => false end
              || match test_version_id with JStr b => (s =? b)%string | _ => false end)
      else None
  | None => None
  end.

Fixpoint first_dataset (test_id test_version_id : json) (flattened_datasets : list json)
  : raises (option json) :=
  match flattened_datasets with
  | [] => Some None
  | ds :: rest =>
      match dataset_matches test_id test_version_id ds with
      | Some true => Some (Some ds)
      | Some false => first_dataset test_id test_version_id rest
      | None => None
      end
  end.

Definition generate_datasets (test_results flattened_datasets : list json)
  : raises (list (json * json)) :=
  foldM (fun acc test_data =>
           key ← Json.get "key" test_data;
           test_id ← Json.get_default "id" (JStr EmptyString) test_data;
           test_version_id ← Json.get_default "testVersionId" (JStr EmptyString) test_data;
           linked_dataset ← first_dataset test_id test_version_id flattened_datasets;
           match linked_dataset with
           | Some ds =>
               if Json.truthy key && Json.truthy ds then
                 if Json.hashable key then Some (acc ++ [(key, ds)]) else None
               else Some acc
           | None => Some acc
           end)
        [] test_results.

End ExportTests.

(** *** Loading the files of the backup *)

(** The body of the loop of [load_json_files]: a file that cannot be
    opened or parsed, or whose "tests" cannot be gone through, is reported
    (the message is given without the text of the exception) and skipped. *)
Definition load_one (data : list json) (f : Backup.file) : run (list json) :=
  let warn := emit (Say Warning ("Could not load " +:+ Backup.name f)) in
  match Backup.content f with
  | None => warn;; mret data
  | Some j =>
      match j with
      | JObj kvs =>
          match Json.lookup "tests" kvs with
          | Some tests =>
              match Json.iter tests with
              | Some l => mret (data ++ l)
              | None => warn;; mret data
              end
          | None => mret (data ++ [j])
          end
      | _ => mret (data ++ [j])
      end
  end.

Definition load_json_files (file_list : list Backup.file) : run (list json) :=
  fold_run load_one [] file_list.

End Exporter.

(** Small directories used to try the collector. *)
Module Fixtures.

Definition tests_with_falsy_ids : Backup.file :=
  {| Backup.name := "tests1.json";
     Backup.content := Some (JObj [("tests",
       JList [JObj [("id", JInt 7)]; JObj [("id", JInt 0)];
              JObj [("key", JStr "PROJ-1")]])]) |}.

Definition tests_without_them : Backup.file :=
  {| Backup.name := "tests1.json";
     Backup.content := Some (JObj [("tests",
       JList [JObj [("id", JInt 7)]; JObj [("key", JStr "PROJ-1")]])]) |}.

Definition file_a : Backup.file :=
  {| Backup.name := "tests1.json";
     Backup.content := Some (JObj [("tests",
       JList [JObj [("id", JInt 7)]; JObj [("id", JStr "8")]])]) |}.

Definition file_a' : Backup.file :=
  {| Backup.name := "tests1.json";
     Backup.content := Some (JObj [("tests",
       JList [JObj [("id", JStr "8")]; JObj [("id", JInt 7)]])]) |}.

Definition file_b : Backup.file :=
  {| Backup.name := "tests2.json";
     Backup.content := Some (JObj [("tests", JList [JObj [("id", JInt 7)]])]) |}.

Definition glob1 (pattern : string) : list Backup.file :=
  if (pattern =? "tests*.json")%string then [file_a; file_b] else [].

Definition glob2 (pattern : string) : list Backup.file :=
  if (pattern =? "tests*.json")%string then [file_b; file_a'] else [].

(** A service and a payload used to try the attachment functions. *)
Definition xray0 : Exporter.xray_service :=
  {| Exporter.attachment_status := fun att_id =>
       if (att_id =? "aa")%string then 404
       else if (att_id =? "bb")%string then 401 else 200;
     Exporter.post_attachment := fun _ => (200, Some (JObj [("id", JStr "e5")]));
     Exporter.post_bulk := fun _ => (200, Some (JObj [("jobId", JStr "job-1")]));
     Exporter.import_status := fun n =>
       (200, Some (JObj [("status", JStr (if (n <? 2)%nat then "working" else "successful"))])) |}.


Definition os0 : Exporter.host :=
  {| Exporter.path_join := fun dir name => dir +:+ "/" +:+ name;
     Exporter.copy_ok := fun _ _ => true |}.

Definition attachments_db0 : list (string * json) :=
  [("aa", JObj [("filename", JStr "img.png")])].

Definition payload_plain : list json :=
  [ JObj [("key", JStr "PROJ-2");
          ("steps", JList [ JObj [("action", JStr "Open the page");
                                  ("data", JStr "");
                                  ("result", JStr "The page is shown")] ])] ].

Definition payload_short : list json :=
  [ JObj [("key", JStr "PROJ-3");
          ("steps", JList [ JObj [("action", JStr "See !xray-attachment://aa!")] ])] ].

(** A tracker that knows PROJ-1 only and finds nothing by search, and
    sessions used to try the wizard. *)
Definition jira0 : Exporter.tracker :=
  {| Exporter.issue_status := fun key => if (key =? "PROJ-1")%string then 200 else 404;
     Exporter.search_issues := fun _ => Some [] |}.

Definition session_of (results : list json) : Exporter.session :=
  {| Exporter.xray_token := None; Exporter.selected_keys := None;
     Exporter.confirm_index := 0; Exporter.Confirmed := false;
     Exporter.Automatic_button_clicked := true;
     Exporter.test_results := results |}.

Definition test_without_key : json :=
  JObj [("key", JStr ""); ("fields", JObj [("summary", JStr "Login");
                                           ("description", JStr "Steps")])].

Definition test_null_description : json :=
  JObj [("key", JStr "OLD-7"); ("fields", JObj [("summary", JStr "Login");
                                                ("description", JNull)])].

(** A metadata cache, tests and datasets used to try the export. *)
Definition metadata0 : json :=
  JObj [("101", JObj [("key", JStr "PROJ-1"); ("summary", JStr "Login");
                      ("description", JNull); ("issuetype", JStr "Test")]);
        ("102", JObj [("key", JStr "PROJ-2")])].

Definition tests0 : list json :=
  [ JObj [("id", JStr "101");
          ("steps", JList [JObj [("action", JStr "Open"); ("result", JStr "Shown")]])] ].

Definition exported0 : list json :=
  [ JObj [("key", JStr "PROJ-1"); ("type", JStr ""); ("generic", JStr "");
          ("cucumber", JStr ""); ("cucumberType", JStr ""); ("id", JStr "101");
          ("testVersionId", JStr "");
          ("fields", JObj [("summary", JStr "Login"); ("description", JNull)]);
          ("steps", JList [JObj [("action", JStr "Open"); ("data", JStr "");
                                 ("result", JStr "Shown")]]);
          ("xray_issue_type", JStr "Test"); ("xray_testtype", JStr "Manual");
          ("xray_preconditions", JList [])] ].

Definition datasets0 : list json :=
  [ JObj [("testIssueId", JStr "999"); ("name", JStr "other")];
    JObj [("testIssueId", JStr "101"); ("name", JStr "logins")] ].

(** A tracker that answers the query for the id 101 only. *)
Definition search0 (jql : string) : option (nat * option json) :=
  if (jql =? "id in (101)")%string then
    Some (200, Some (JObj [("issues", JList [
      JObj [("id", JStr "101"); ("key", JStr "PROJ-1");
            ("fields", JObj [("summary", JStr "Login"); ("assignee", JNull)])] ])]))
  else None.

Definition entry0 : json :=
  JObj [("key", JStr "PROJ-1"); ("summary", JStr "Login"); ("description", JStr "");
        ("status", JStr ""); ("assignee", JStr ""); ("reporter", JStr "");
        ("links", JObj []); ("issuetype", JStr ""); ("comments", JNull)].

End Fixtures.

Example fetch_queries_100_102 :
  Backup.fetch_queries ["100"; "x7"; "102"] = ["id in (100, 102)"].
Proof. vm_compute. reflexivity. Qed.

(** * Properties *)

(** ** Batching of issue ids *)

Section Batching.

Local Open Scope nat_scope.

Lemma range_0_length (n step : nat) :
  length (Py.range 0 n step) = (n + (step - 1)) / step.
Proof. unfold Py.range. rewrite length_map, length_seq. f_equal. lia. Qed.

Lemma batches_unfold (l : list N) :
  Backup.batches l =
  map (fun k => take Backup.batch_size (drop (k * Backup.batch_size) l))
      (seq 0 (Backup.total_batches l)).
Proof.
  unfold Backup.batches, Backup.total_batches, Py.range, Py.slice.
  rewrite map_map.
  replace (length l - 0 + (Backup.batch_size - 1))
    with (length l + Backup.batch_size - 1) by (unfold Backup.batch_size; lia).
  apply map_ext. intros k. f_equal. lia.
Qed.

Lemma concat_chunks (b : nat) (l : list N) (m : nat) :
  concat (map (fun k => take b (drop (k * b) l)) (seq 0 m)) = take (m * b) l.
Proof.
  induction m as [|m IH].
  - reflexivity.
  - rewrite seq_S, map_app, concat_app, IH. simpl.
    rewrite app_nil_r, take_take_drop. f_equal. lia.
Qed.

Lemma total_batches_bounds (l : list N) :
  length l <= Backup.batch_size * Backup.total_batches l
  /\ Backup.batch_size * Backup.total_batches l < length l + Backup.batch_size.
Proof.
  unfold Backup.total_batches, Backup.batch_size.
  pose proof (Nat.div_mod_eq (length l + 50 - 1) 50) as E.
  assert (B : (length l + 50 - 1) mod 50 < 50) by (apply Nat.mod_upper_bound; lia).
  lia.
Qed.

Lemma batches_lookup (l : list N) (k : nat) (b : list N) :
  Backup.batches l !! k = Some b ->
  b = take Backup.batch_size (drop (k * Backup.batch_size) l)
  /\ k < Backup.total_batches l.
Proof.
  rewrite batches_unfold, list_lookup_fmap. intros H.
  destruct (seq 0 (Backup.total_batches l) !! k) as [j|] eqn:E; [|discriminate].
  apply lookup_seq in E as [-> Hk]. simpl in H. injection H as <-. auto.
Qed.

Lemma batches_lookup_lt (l : list N) (k : nat) :
  k < Backup.total_batches l ->
  Backup.batches l !! k
  = Some (take Backup.batch_size (drop (k * Backup.batch_size) l)).
Proof.
  intros Hk. rewrite batches_unfold, list_lookup_fmap.
  rewrite lookup_seq_lt by exact Hk. reflexivity.
Qed.

Lemma batches_lookup_ge (l : list N) (k : nat) :
  Backup.total_batches l <= k -> Backup.batches l !! k = None.
Proof.
  intros Hk. rewrite batches_unfold, list_lookup_fmap.
  rewrite lookup_seq_ge by exact Hk. reflexivity.
Qed.

(** C3. For an id list of length N the fetcher goes through exactly
    ceil(N/50) batches (the least k with N <= 50 k), every batch holds at
    most 50 ids, the batches laid end to end are the id list itself (no id
    dropped, none repeated), and the id at position i of the list is the
    one at offset i mod 50 of batch i/50. *)
Theorem C3_batches_partition (id_list : list N) :
  let bs := Backup.batches id_list in
  let n := length id_list in
  length bs = Backup.total_batches id_list
  /\ (n <= 50 * length bs /\ 50 * length bs < n + 50)
  /\ Forall (fun b => length b <= 50) bs
  /\ concat bs = id_list
  /\ (forall i, id_list !! i = bs !! (i / 50) ≫= (fun b => b !! (i mod 50))).
Proof.
  intros bs n. subst bs n.
  assert (L : length (Backup.batches id_list) = Backup.total_batches id_list).
  { rewrite batches_unfold, length_map, length_seq. reflexivity. }
  pose proof (total_batches_bounds id_list) as [B1 B2].
  unfold Backup.batch_size in B1, B2.
  repeat split.
  - exact L.
  - rewrite L. exact B1.
  - rewrite L. exact B2.
  - apply Forall_forall. intros b Hb.
    apply list_elem_of_lookup in Hb as [k Hk].
    apply batches_lookup in Hk as [-> _].
    rewrite length_take. unfold Backup.batch_size. lia.
  - rewrite batches_unfold, concat_chunks. apply take_ge.
    unfold Backup.batch_size. lia.
  - intros i.
    pose proof (Nat.div_mod_eq i 50) as E.
    assert (B : i mod 50 < 50) by (apply Nat.mod_upper_bound; lia).
    destruct (Nat.lt_ge_cases (i / 50) (Backup.total_batches id_list)) as [Hk|Hk].
    + rewrite batches_lookup_lt by exact Hk. cbn -[Nat.modulo Nat.div take drop].
      rewrite lookup_take_lt by (unfold Backup.batch_size; lia).
      rewrite lookup_drop. f_equal. unfold Backup.batch_size. lia.
    + rewrite batches_lookup_ge by exact Hk. cbn -[Nat.modulo Nat.div].
      apply lookup_ge_None. lia.
Qed.

End Batching.

(** ** Collection of issue ids *)

Section FoldUnion.

(** A loop that adds to a set what each element contributes, and raises
    when an element does: its result depends only on the contributions
    met, not on their order or number. *)
Context {A : Type} (g : A -> raises (gset string))
        (f : gset string -> A -> raises (gset string)).
Hypothesis f_spec : forall b x, f b x = (fun X => b ∪ X) <$> g x.

Lemma foldM_union_None (l : list A) (b : gset string) :
  foldM f b l = None <-> exists x, x ∈ l /\ g x = None.
Proof.
  revert b. induction l as [|x l IH]; intros b; simpl.
  - split; [discriminate|]. intros (x & Hx & _). inversion Hx.
  - rewrite f_spec. destruct (g x) as [X|] eqn:E; simpl.
    + rewrite IH. split.
      * intros (y & Hy & Hg). exists y. split; [by right|done].
      * intros (y & Hy & Hg). apply elem_of_cons in Hy as [->|Hy]; [congruence|].
        by exists y.
    + split; [|done]. intros _. exists x. split; [by left|done].
Qed.

Lemma foldM_union_Some (l : list A) (b S : gset string) :
  foldM f b l = Some S ->
  forall y, y ∈ S <-> y ∈ b \/ exists x X, x ∈ l /\ g x = Some X /\ y ∈ X.
Proof.
  revert b. induction l as [|x l IH]; intros b; simpl.
  - intros [= <-] y. split; [by left|]. intros [H|(x & X & Hx & _)]; [done|].
    inversion Hx.
  - rewrite f_spec. destruct (g x) as [X|] eqn:E; simpl; [|discriminate].
    intros H y. rewrite (IH _ H), elem_of_union. split.
    + intros [[Hb|HX]|(x' & X' & Hx' & Hg & Hy)].
      * by left.
      * right. exists x, X. split; [by left|done].
      * right. exists x', X'. split; [by right|done].
    + intros [Hb|(x' & X' & Hx' & Hg & Hy)]; [by left; left|].
      apply elem_of_cons in Hx' as [->|Hx'].
      * left; right. congruence.
      * right. by exists x', X'.
Qed.

End FoldUnion.

Lemma foldM_union_same {A A'} (g : A -> raises (gset string))
    (g' : A' -> raises (gset string)) f f' (l : list A) (l' : list A') b :
  (forall b x, f b x = (fun X => b ∪ X) <$> g x) ->
  (forall b x, f' b x = (fun X => b ∪ X) <$> g' x) ->
  (forall r, (exists x, x ∈ l /\ g x = r) <-> (exists x, x ∈ l' /\ g' x = r)) ->
  foldM f b l = foldM f' b l'.
Proof.
  intros Hf Hf' Hsame.
  destruct (foldM f b l) as [S|] eqn:E, (foldM f' b l') as [S'|] eqn:E'.
  - f_equal. apply set_eq. intros y.
    rewrite (foldM_union_Some g f Hf _ _ _ E), (foldM_union_Some g' f' Hf' _ _ _ E').
    split; (intros [Hb|(x & X & Hx & Hg & Hy)]; [by left|right]).
    + destruct (proj1 (Hsame (Some X))) as (x' & Hx' & Hg'); [by exists x|].
      by exists x', X.
    + destruct (proj2 (Hsame (Some X))) as (x' & Hx' & Hg'); [by exists x|].
      by exists x', X.
  - apply (foldM_union_None g' f' Hf') in E' as (x' & Hx' & Hg').
    destruct (proj2 (Hsame None)) as (x & Hx & Hg); [by exists x'|].
    assert (foldM f b l = None) as E2
      by (apply (foldM_union_None g f Hf); by exists x).
    congruence.
  - apply (foldM_union_None g f Hf) in E as (x & Hx & Hg).
    destruct (proj1 (Hsame None)) as (x' & Hx' & Hg'); [by exists x|].
    assert (foldM f' b l' = None) as E2
      by (apply (foldM_union_None g' f' Hf'); by exists x').
    congruence.
  - reflexivity.
Qed.

Lemma foldM_union_shift {A} (g : A -> raises (gset string)) f (l : list A) b :
  (forall b x, f b x = (fun X => b ∪ X) <$> g x) ->
  foldM f b l = (fun X => b ∪ X) <$> foldM f ∅ l.
Proof.
  intros Hf. revert b. induction l as [|x l IH]; intros b; simpl.
  - f_equal. by rewrite union_empty_r_L.
  - rewrite !Hf. destruct (g x) as [X|]; simpl; [|done].
    rewrite (IH (b ∪ X)), (IH (∅ ∪ X)).
    destruct (foldM f ∅ l) as [Y|]; simpl; [|done].
    f_equal. by rewrite union_empty_l_L, (assoc_L (∪)).
Qed.

Section CollectorProps.

Variable repr : json -> string.

Local Abbreviation add_item := (Backup.add_item repr).
Local Abbreviation scan_file := (Backup.scan_file repr).

Lemma add_item_union b x :
  add_item b x = (fun X => b ∪ X) <$> add_item ∅ x.
Proof.
  unfold Backup.add_item. destruct (Json.get "id" x) as [v|]; simpl; [|done].
  f_equal. destruct (Json.truthy v).
  - by rewrite union_empty_l_L.
  - by rewrite union_empty_r_L.
Qed.

Lemma scan_file_union b f :
  scan_file b f = (fun X => b ∪ X) <$> scan_file ∅ f.
Proof.
  unfold Backup.scan_file. destruct (Backup.content f) as [c|]; [|done].
  destruct (Backup.items_of c) as [items|]; [|done].
  destruct (Json.iter items) as [l|]; [|done].
  apply (foldM_union_shift (add_item ∅)), add_item_union.
Qed.

Lemma scan_items_perm b l l' :
  Permutation l l' -> foldM add_item b l = foldM add_item b l'.
Proof.
  intros HP.
  apply (foldM_union_same (add_item ∅) (add_item ∅)); try apply add_item_union.
  intros r. split; intros (x & Hx & Hg); exists x; split; try done.
  - by rewrite <- HP.
  - by rewrite HP.
Qed.

Lemma truthy_items_perm v v' :
  Backup.items_perm v v' -> Json.truthy v = Json.truthy v'.
Proof.
  intros [l l' HP|]; [|done]. simpl.
  destruct l, l'; try done.
  - by apply Permutation_nil_cons in HP.
  - symmetry in HP. by apply Permutation_nil_cons in HP.
Qed.

Lemma or_items_perm a a' b b' :
  Backup.items_perm a a' -> Backup.items_perm b b' ->
  Backup.items_perm (Json.or a b) (Json.or a' b').
Proof.
  intros Ha Hb. unfold Json.or. rewrite <- (truthy_items_perm _ _ Ha).
  by destruct (Json.truthy a).
Qed.

Lemma get_items_perm k kvs kvs' :
  Forall2 (fun kv kv' => fst kv = fst kv' /\ Backup.items_perm (snd kv) (snd kv'))
          kvs kvs' ->
  exists v v', Json.get k (JObj kvs) = Some v /\ Json.get k (JObj kvs') = Some v'
               /\ Backup.items_perm v v'.
Proof.
  unfold Json.get, Json.get_default.
  induction 1 as [|[k1 v1] [k2 v2] kvs kvs' [Hk Hv] _ IH]; simpl in *.
  - exists JNull, JNull. repeat split. constructor.
  - subst k2. destruct (k =? k1)%string.
    + exists v1, v2. done.
    + exact IH.
Qed.

Lemma scan_file_perm f f' :
  Backup.file_perm f f' -> scan_file ∅ f = scan_file ∅ f'.
Proof.
  intros [n kvs kvs' HF|]; [|done].
  unfold Backup.scan_file, Backup.items_of. cbn [Backup.content].
  destruct (get_items_perm "tests" _ _ HF) as (t & t' & -> & -> & Ht).
  destruct (get_items_perm "preconditions" _ _ HF) as (p & p' & -> & -> & Hp).
  destruct (get_items_perm "testPlans" _ _ HF) as (tp & tp' & -> & -> & Htp).
  destruct (get_items_perm "testSets" _ _ HF) as (ts & ts' & -> & -> & Hts).
  assert (Hitems : Backup.items_perm
            (Json.or t (Json.or p (Json.or tp (Json.or ts (JList [])))))
            (Json.or t' (Json.or p' (Json.or tp' (Json.or ts' (JList [])))))).
  { repeat apply or_items_perm; try done. constructor 2. }
  destruct Hitems as [l l' HP|v]; [|done].
  simpl. by apply scan_items_perm.
Qed.

Lemma scan_listing_perm b l l' :
  Backup.listing_perm l l' -> foldM scan_file b l = foldM scan_file b l'.
Proof.
  intros (l'' & HP & HF).
  apply (foldM_union_same (scan_file ∅) (scan_file ∅)); try apply scan_file_union.
  intros r. split; intros (x & Hx & Hg).
  - rewrite HP in Hx. apply list_elem_of_lookup in Hx as [i Hi].
    destruct (Forall2_lookup_l _ _ _ _ _ HF Hi) as (y & Hy & Hxy).
    exists y. split; [by eapply list_elem_of_lookup_2|].
    by rewrite <- (scan_file_perm _ _ Hxy).
  - apply list_elem_of_lookup in Hx as [i Hi].
    destruct (Forall2_lookup_r _ _ _ _ _ HF Hi) as (y & Hy & Hxy).
    exists y. split; [rewrite HP; by eapply list_elem_of_lookup_2|].
    by rewrite (scan_file_perm _ _ Hxy).
Qed.

Lemma collect_ext (glob glob' : string -> list Backup.file) :
  (forall p b, foldM scan_file b (glob p) = foldM scan_file b (glob' p)) ->
  Backup.collect_jira_ids repr glob = Backup.collect_jira_ids repr glob'.
Proof.
  intros H. unfold Backup.collect_jira_ids.
  generalize (∅ : gset string). induction Backup.patterns as [|p ps IH]; intros b.
  - done.
  - simpl. rewrite H. destruct (foldM scan_file b (glob' p)); [apply IH|done].
Qed.

Lemma scan_listing_twice b l :
  foldM scan_file b (l ++ l) = foldM scan_file b l.
Proof.
  apply (foldM_union_same (scan_file ∅) (scan_file ∅)); try apply scan_file_union.
  intros r. split; intros (x & Hx & Hg); exists x; split; try done.
  - apply elem_of_app in Hx. tauto.
  - apply elem_of_app. tauto.
Qed.

End CollectorProps.

(** C8. The set of string-normalized ids the collector returns does not
    depend on the order in which the files are enumerated or in which the
    items appear inside a file; scanning every file a second time changes
    nothing either. *)
Theorem C8_collect_order_independent (repr : json -> string)
    (glob glob' : string -> list Backup.file) :
  (forall p, Backup.listing_perm (glob p) (glob' p)) ->
  Backup.collect_jira_ids repr glob' = Backup.collect_jira_ids repr glob
  /\ Backup.collect_jira_ids repr (fun p => glob p ++ glob p)
     = Backup.collect_jira_ids repr glob.
Proof.
  intros H. split.
  - symmetry. apply collect_ext. intros p b. apply scan_listing_perm, H.
  - apply collect_ext. intros p b. apply scan_listing_twice.
Qed.

(** C9. An item whose "id" is falsy (0, the empty string, null) or absent
    adds nothing: the step for it leaves the set as it is, and a list of
    items, or a scanned file holding that list under a recognized key,
    gives the same set with the item as without it. *)
Theorem C9_falsy_id_dropped (repr : json -> string) (item v : json) :
  Json.get "id" item = Some v -> Json.truthy v = false ->
  (forall ids, Backup.add_item repr ids item = Some ids)
  /\ (forall ids pre post,
        foldM (Backup.add_item repr) ids (pre ++ item :: post)
        = foldM (Backup.add_item repr) ids (pre ++ post))
  /\ (forall ids n c c' pre post,
        Backup.items_of c = Some (JList (pre ++ item :: post)) ->
        Backup.items_of c' = Some (JList (pre ++ post)) ->
        Backup.scan_file repr ids {| Backup.name := n; Backup.content := Some c |}
        = Backup.scan_file repr ids {| Backup.name := n; Backup.content := Some c' |}).
Proof.
  intros Hget Hfalsy.
  assert (Hadd : forall ids, Backup.add_item repr ids item = Some ids).
  { intros ids. unfold Backup.add_item. by rewrite Hget, Hfalsy. }
  assert (Hlist : forall ids pre post,
        foldM (Backup.add_item repr) ids (pre ++ item :: post)
        = foldM (Backup.add_item repr) ids (pre ++ post)).
  { intros ids pre. revert ids. induction pre as [|x pre IH]; intros ids post; simpl.
    - by rewrite Hadd.
    - destruct (Backup.add_item repr ids x); [apply IH|done]. }
  repeat split; try done.
  intros ids n c c' pre post Hc Hc'. unfold Backup.scan_file. simpl.
  rewrite Hc, Hc'. simpl. apply Hlist.
Qed.

Lemma C9_falsy_id_dropped_witness :
  (Json.get "id" (JObj [("id", JInt 0)]) = Some (JInt 0)
   /\ Json.truthy (JInt 0) = false)
  /\ Backup.scan_file (fun _ => "") ∅ Fixtures.tests_with_falsy_ids
     = Backup.scan_file (fun _ => "") ∅ Fixtures.tests_without_them.
Proof.
  split; [split; reflexivity|].
  apply (proj2 (proj2 (C9_falsy_id_dropped (fun _ => "") (JObj [("id", JInt 0)])
                         (JInt 0) eq_refl eq_refl))
           ∅ "tests1.json" _ _ [JObj [("id", JInt 7)]]
           [JObj [("key", JStr "PROJ-1")]]); reflexivity.
Defined.

Lemma C8_collect_order_independent_witness :
  (forall p, Backup.listing_perm (Fixtures.glob1 p) (Fixtures.glob2 p))
  /\ Backup.collect_jira_ids (fun _ => "") Fixtures.glob2
     = Backup.collect_jira_ids (fun _ => "") Fixtures.glob1.
Proof.
  assert (H : forall p, Backup.listing_perm (Fixtures.glob1 p) (Fixtures.glob2 p)).
  { intros p. unfold Fixtures.glob1, Fixtures.glob2.
    destruct (p =? "tests*.json")%string.
    - exists [Fixtures.file_b; Fixtures.file_a]. split; [apply perm_swap|].
      repeat constructor.
    - exists []. split; constructor. }
  split; [exact H|].
  apply (proj1 (C8_collect_order_independent (fun _ => "") _ _ H)).
Defined.

(** ** The search query *)

Section Query.

Import Exporter.

Lemma literal_one_hit (c : ascii) (new s : string) (bol : bool) :
  Re.literal (String c EmptyString) new bol (String c s) = Some (1, new).
Proof.
  unfold Re.literal. simpl. destruct (Ascii.ascii_dec c c); [|congruence].
  by destruct s.
Qed.

Lemma literal_one_miss (c c' : ascii) (new s : string) (bol : bool) :
  c <> c' -> Re.literal (String c EmptyString) new bol (String c' s) = None.
Proof.
  intros H. unfold Re.literal. simpl. by destruct (Ascii.ascii_dec c c').
Qed.

Lemma escape_quotes_escaped (s : string) (bol behind : bool) :
  quotes_escaped behind (Re.sub_from (Re.literal dquote (backslash +:+ dquote)) bol 0 s)
  = true.
Proof.
  revert bol behind. induction s as [|c s IH]; intros bol behind; [done|].
  cbn [Re.sub_from]. unfold dquote at 1.
  destruct (Ascii.ascii_dec (ascii_of_nat 34) c) as [<-|Hc].
  - rewrite literal_one_hit. change (1 - 1) with 0.
    change (backslash +:+ dquote)
      with (String (ascii_of_nat 92) (String (ascii_of_nat 34) EmptyString)) at 1.
    cbn [String.append quotes_escaped].
    change (ascii_of_nat 92 =? ascii_of_nat 34)%char with false.
    change (ascii_of_nat 92 =? ascii_of_nat 92)%char with true.
    change (ascii_of_nat 34 =? ascii_of_nat 34)%char with true.
    cbn [andb]. apply IH.
  - rewrite literal_one_miss by done. cbn [quotes_escaped].
    assert ((c =? ascii_of_nat 34)%char = false) as ->
      by (apply Ascii.eqb_neq; congruence).
    apply IH.
Qed.

Lemma rstrip_free p (s : string) : free_of p s = true -> free_of p (Py.rstrip s) = true.
Proof.
  induction s as [|c s IH]; [done|]. simpl. intros [Hc Hs]%andb_true_iff.
  specialize (IH Hs). destruct (Py.rstrip s).
  - destruct (Py.is_space c); [done|]. simpl. by rewrite Hc.
  - simpl in *. by rewrite Hc, IH.
Qed.

Lemma lstrip_free p (s : string) : free_of p s = true -> free_of p (Py.lstrip s) = true.
Proof.
  induction s as [|c s IH]; [done|]. simpl. intros H.
  destruct (Py.is_space c); [|done].
  apply IH. by apply andb_true_iff in H as [_ ?].
Qed.

Lemma sub_bracket_free (s : string) (bol : bool) :
  free_of is_bracket (Re.sub_from bracket bol 0 s) = true.
Proof.
  revert bol. induction s as [|c s IH]; intros bol; [done|].
  cbn [Re.sub_from bracket]. fold (is_bracket c).
  destruct (is_bracket c) eqn:E.
  - cbn -[Re.sub_from]. apply IH.
  - cbn -[Re.sub_from]. by rewrite E, IH.
Qed.

Lemma strip_markup_no_brackets (text : string) :
  free_of is_bracket (strip_jira_wiki_markup text) = true.
Proof.
  unfold strip_jira_wiki_markup, Py.strip.
  apply rstrip_free, lstrip_free, sub_bracket_free.
Qed.

(** C6, as amended. In the query sent to the search endpoint the summary
    has its double quotes escaped (each one stands right behind a
    backslash), and the description, when it is not blank, is the text
    [strip_jira_wiki_markup] gives for it, which has no square bracket
    left; a blank description is queried as IS EMPTY. *)
Theorem C6_query_sanitizing (summary description : string) :
  exists s' d',
    s' = str_replace dquote (backslash +:+ dquote) summary
    /\ quotes_escaped false s' = true
    /\ d' = strip_jira_wiki_markup description
    /\ free_of is_bracket d' = true
    /\ jql_of summary description
       = match Py.strip description with
         | EmptyString =>
             "summary ~ " +:+ dquote +:+ s' +:+ dquote +:+ " AND description IS EMPTY"
         | _ =>
             "summary ~ " +:+ dquote +:+ s' +:+ dquote
             +:+ " AND description ~ " +:+ dquote +:+ d' +:+ dquote
         end.
Proof.
  eexists _, _. split; [reflexivity|].
  split; [apply (escape_quotes_escaped summary true false)|].
  split; [reflexivity|]. split; [apply strip_markup_no_brackets|]. reflexivity.
Qed.

(** C6 as stated fails. The markup of the summary stays in the query, and
    the quotes of the description are not escaped: the query differs from
    the one with both inputs sanitized. *)
Lemma C6_counterexample :
  jql_of "*a*" "d" <> jql_spec "*a*" "d"
  /\ jql_of "*a*" "d"
     = "summary ~ " +:+ dquote +:+ "*a*" +:+ dquote
       +:+ " AND description ~ " +:+ dquote +:+ "d" +:+ dquote
  /\ strip_jira_wiki_markup "*a*" = "a"
  /\ jql_of "s" ("a" +:+ dquote +:+ "b") <> jql_spec "s" ("a" +:+ dquote +:+ "b")
  /\ jql_of "s" ("a" +:+ dquote +:+ "b")
     = "summary ~ " +:+ dquote +:+ "s" +:+ dquote
       +:+ " AND description ~ " +:+ dquote +:+ "a" +:+ dquote +:+ "b" +:+ dquote.
Proof. repeat split; try reflexivity; vm_compute; discriminate. Qed.

End Query.

(** ** Attachment markers *)

Section Markers.

Import Exporter.

Lemma substring_span_all (p : ascii -> bool) (s : string) :
  Py.forallb_string p (String.substring 0 (Re.span p s) s) = true.
Proof.
  induction s as [|c s IH]; [done|]. simpl.
  destruct (p c) eqn:E; [|done]. simpl. by rewrite E, IH.
Qed.

Lemma prefix_substring (n : nat) (s : string) :
  String.prefix (String.substring 0 n s) s = true.
Proof.
  revert s. induction n as [|n IH]; intros [|c s]; simpl; try done.
  destruct (Ascii.ascii_dec c c); [apply IH|done].
Qed.

Lemma prefix_app_substring (a s : string) (n : nat) :
  String.prefix a s = true ->
  String.prefix (a +:+ String.substring 0 n (Re.drop (String.length a) s)) s = true.
Proof.
  revert s. induction a as [|c a IH]; intros s H.
  - simpl. destruct s; apply prefix_substring.
  - destruct s as [|c' s]; [done|]. simpl in *.
    destruct (Ascii.ascii_dec c c'); [by apply IH|done].
Qed.

Lemma marker_at_sound (s att_id : string) (n : nat) :
  marker_at s = Some (att_id, n) ->
  att_id <> EmptyString
  /\ Py.forallb_string is_id_char att_id = true
  /\ String.prefix (marker_open +:+ att_id) s = true.
Proof.
  unfold marker_at. destruct (String.prefix marker_open s) eqn:Hp; [|done].
  set (rest := Re.drop (String.length marker_open) s).
  destruct (Re.span is_id_char rest) as [|k] eqn:Hn; [done|].
  assert (Hid : String.substring 0 (S k) rest <> EmptyString
                /\ Py.forallb_string is_id_char (String.substring 0 (S k) rest) = true
                /\ String.prefix (marker_open +:+ String.substring 0 (S k) rest) s = true).
  { split; [by destruct rest|]. split.
    - rewrite <- Hn. apply substring_span_all.
    - by apply prefix_app_substring. }
  destruct (Re.drop (S k) rest) as [|c after]; [done|].
  destruct (Ascii.ascii_dec c "!") as [->|H1].
  { intros [= <- _]. exact Hid. }
  destruct (Ascii.ascii_dec c "|") as [->|H2].
  { destruct (Re.drop _ after) as [|c' ?]; [done|].
    destruct (Ascii.ascii_dec c' "!") as [->|H3].
    - intros [= <- _]. exact Hid.
    - intros H. exfalso. revert H.
      destruct c' as [[] [] [] [] [] [] [] []]; try done. }
  intros H. exfalso. revert H.
  destruct c as [[] [] [] [] [] [] [] []]; try done.
Qed.

Lemma contains_cons (p : string) (c : ascii) (s : string) :
  Py.contains p s = true -> Py.contains p (String c s) = true.
Proof. intros H. simpl. rewrite H. apply orb_true_r. Qed.

Lemma findall_markers_sound (skip : nat) (s att_id : string) :
  att_id ∈ findall_markers skip s ->
  att_id <> EmptyString
  /\ Py.forallb_string is_id_char att_id = true
  /\ Py.contains (marker_open +:+ att_id) s = true.
Proof.
  revert skip. induction s as [|c s IH]; intros skip H.
  - destruct skip; inversion H.
  - cbn [findall_markers] in H. destruct skip as [|k].
    + destruct (marker_at (String c s)) as [[a n]|] eqn:Hm.
      * apply elem_of_cons in H as [->|H].
        -- destruct (marker_at_sound _ _ _ Hm) as (H1 & H2 & H3).
           repeat split; try done.
           destruct (marker_open +:+ a) eqn:E; [by destruct a|].
           rewrite <- E in *. unfold Py.contains; fold Py.contains. by rewrite H3.
        -- destruct (IH _ H) as (H1 & H2 & H3). repeat split; try done.
           by apply contains_cons.
      * destruct (IH _ H) as (H1 & H2 & H3). repeat split; try done.
        by apply contains_cons.
    + destruct (IH _ H) as (H1 & H2 & H3). repeat split; try done.
      by apply contains_cons.
Qed.

(** X1. Every id [extract_xray_attachment_ids] returns is not empty, is
    made of the characters a to f, digits and hyphen only, and stands in
    the text right behind the opening of a marker. *)
Theorem X1_extracted_ids_sound (text att_id : string) :
  att_id ∈ extract_xray_attachment_ids text ->
  att_id <> EmptyString
  /\ Py.forallb_string is_id_char att_id = true
  /\ Py.contains (marker_open +:+ att_id) text = true.
Proof. apply findall_markers_sound. Qed.

Lemma X1_extracted_ids_sound_witness :
  "abc-1" ∈ extract_xray_attachment_ids "See !xray-attachment://abc-1|img.png!"
  /\ Py.contains (marker_open +:+ "abc-1") "See !xray-attachment://abc-1|img.png!" = true.
Proof.
  assert (H : "abc-1" ∈ extract_xray_attachment_ids "See !xray-attachment://abc-1|img.png!")
    by (vm_compute; left).
  split; [exact H|].
  apply (X1_extracted_ids_sound _ _ H).
Defined.

End Markers.

(** ** Computations with a trace *)

Section Runs.

Import Exporter.

Lemma bind_Some {A B} (c : run A) (k : A -> run B) (b : B) :
  result (c ≫= k) = Some b ->
  exists a, result c = Some a /\ result (k a) = Some b
            /\ trace (c ≫= k) = trace c ++ trace (k a).
Proof.
  unfold mbind, run_bind, bind, result, trace.
  destruct c as [t [a|]]; simpl; [|done].
  destruct (k a) as [t' r] eqn:E. simpl. intros ->. exists a. by rewrite E.
Qed.

Lemma bind_emit {B} (e : event) (k : unit -> run B) :
  emit e ≫= k = (e :: trace (k tt), result (k tt)).
Proof.
  unfold mbind, run_bind, bind, emit, trace, result. by destruct (k tt).
Qed.

Lemma bind_lift_Some {A B} (a : A) (k : A -> run B) : lift (Some a) ≫= k = k a.
Proof. unfold mbind, run_bind, bind, lift. by destruct (k a). Qed.

Lemma bind_lift_None {A B} (k : A -> run B) : lift None ≫= k = ([], None).
Proof. reflexivity. Qed.

Lemma bind_ret {A B} (a : A) (k : A -> run B) : mret a ≫= k = k a.
Proof. unfold mret, run_ret, ret, mbind, run_bind, bind. by destruct (k a). Qed.


Lemma elem_of_keys_store (k k' : string) (v : json) (m : list (string * json)) :
  k ∈ map fst (Json.store k' v m) <-> k = k' \/ k ∈ map fst m.
Proof.
  induction m as [|[k1 v1] m IH]; simpl.
  - rewrite list_elem_of_singleton. split; [by left|]. intros [?|H]; [done|inversion H].
  - destruct (String.eqb_spec k' k1) as [->|Hne]; simpl.
    + rewrite !elem_of_cons. tauto.
    + rewrite !elem_of_cons, IH. tauto.
Qed.

End Runs.

(** ** The check of the attachments *)

Section MissingAttachments.

Import Exporter.

Variable xray : xray_service.






End MissingAttachments.


(** X2. A text in which the opening of a marker does not occur gives no
    attachment id. *)
Theorem X2_no_marker_no_id (text : string) :
  Py.contains Exporter.marker_open text = false ->
  Exporter.extract_xray_attachment_ids text = [].
Proof.
  unfold Exporter.extract_xray_attachment_ids. generalize 0.
  induction text as [|c s IH]; intros skip H; [done|].
  cbn [Exporter.findall_markers].
  unfold Py.contains in H; fold Py.contains in H.
  apply orb_false_iff in H as [Hp Hs].
  destruct skip; [|by apply IH].
  unfold Exporter.marker_at. rewrite Hp. by apply IH.
Qed.

Lemma X2_no_marker_no_id_witness :
  Py.contains Exporter.marker_open "Click the !button! now" = false
  /\ Exporter.extract_xray_attachment_ids "Click the !button! now" = [].
Proof.
  split; [reflexivity|].
  apply (X2_no_marker_no_id "Click the !button! now" eq_refl).
Defined.

(** ** The upload of the missing attachments *)

Lemma fold_run_inv_in {A B} (P : list Exporter.event -> B -> Prop)
    (f : B -> A -> Exporter.run B) (l : list A) :
  (forall t b x b', x ∈ l -> P t b -> Exporter.result (f b x) = Some b' ->
                    P (t ++ Exporter.trace (f b x)) b') ->
  forall t b b', P t b -> Exporter.result (Exporter.fold_run f b l) = Some b' ->
                 P (t ++ Exporter.trace (Exporter.fold_run f b l)) b'.
Proof.
  intros Hf.
  assert (G : forall l', (forall x, x ∈ l' -> x ∈ l) ->
            forall t b b', P t b -> Exporter.result (Exporter.fold_run f b l') = Some b' ->
                           P (t ++ Exporter.trace (Exporter.fold_run f b l')) b').
  { induction l' as [|x l' IH]; intros Hin t b b' HP Hr.
    - simpl in *. injection Hr as <-. by rewrite app_nil_r.
    - cbn [Exporter.fold_run] in *. apply bind_Some in Hr as (b1 & H1 & H2 & ->).
      rewrite app_assoc. eapply IH; [|by eapply Hf; [apply Hin; left| |]|done].
      intros y Hy. apply Hin. by right. }
  by apply G.
Qed.

Section UploadProps.

Import Exporter.

Variable xray : xray_service.
Variable os : host.

Lemma copy_and_post_spec fs old_id new_name original_path new_path fs' new_id :
  result (copy_and_post xray os fs old_id new_name original_path new_path)
  = Some (fs', new_id) ->
  fs ⊆ fs'
  /\ (is_Some new_id ->
      original_path ∈ fs
      /\ CopyFile original_path new_path
           ∈ trace (copy_and_post xray os fs old_id new_name original_path new_path)
      /\ PostAttachment new_name
           ∈ trace (copy_and_post xray os fs old_id new_name original_path new_path)
      /\ fst (post_attachment xray new_name) = 200).
Proof.
  unfold copy_and_post. case_bool_decide as Hin.
  2:{ intros [= <- <-]. split; [done|]. by intros [? ?]. }
  rewrite bind_emit.
  destruct (negb (original_path =? new_path)%string && copy_ok os original_path new_path).
  2:{ rewrite bind_emit. cbn. intros [= <- <-]. split; [done|]. by intros [? ?]. }
  rewrite !bind_emit.
  destruct (post_attachment xray new_name) as [code body] eqn:Hpost.
  assert (Hsub : fs ⊆ fs ∪ {[new_path]}) by apply union_subseteq_l.
  destruct (Nat.eqb_spec code 200) as [->|Hne].
  - destruct body as [body|].
    + destruct (Json.get "id" body) as [v|].
      * cbn. intros [= <- <-]. split; [done|]. intros _.
        repeat split; try done.
        -- by left.
        -- right. right. by left.
      * cbn. intros [= <- <-]. split; [done|]. by intros [? ?].
    + cbn. intros [= <- <-]. split; [done|]. by intros [? ?].
  - cbn. intros [= <- <-]. split; [done|]. by intros [? ?].
Qed.

Variable backup_dir : string.
Variable attachments_database : list (string * json).
Variable missing_ids : list string.
Variable fs0 : gset string.

(** What holds of the mapping built so far: each of its keys is a missing
    id with metadata whose file was posted under the name of the metadata
    and answered 200; and no file has disappeared. *)
Definition upload_inv (t : list event) (acc : list (string * json) * gset string) : Prop :=
  fs0 ⊆ snd acc
  /\ forall old_id, old_id ∈ map fst (fst acc) ->
       old_id ∈ missing_ids
       /\ exists entry new_name,
            Json.lookup old_id attachments_database = Some entry
            /\ Json.getitem "filename" entry = Some (JStr new_name)
            /\ PostAttachment new_name ∈ t
            /\ fst (post_attachment xray new_name) = 200.

Lemma upload_inv_mono t t' acc : upload_inv t acc -> upload_inv (t ++ t') acc.
Proof.
  intros [H1 H2]. split; [done|]. intros o Ho.
  destruct (H2 o Ho) as (? & e & n & ? & ? & ? & ?). split; [done|].
  exists e, n. repeat split; try done. apply elem_of_app. by left.
Qed.

Lemma upload_one_inv t acc old_id acc' :
  old_id ∈ missing_ids -> upload_inv t acc ->
  result (upload_one xray os backup_dir attachments_database acc old_id) = Some acc' ->
  upload_inv (t ++ trace (upload_one xray os backup_dir attachments_database acc old_id)) acc'.
Proof.
  intros Hin HI. destruct acc as [uploaded fs]. unfold upload_one.
  destruct (Json.lookup old_id attachments_database) as [entry|] eqn:Hdb.
  2:{ rewrite bind_emit. cbn. intros [= <-]. by apply upload_inv_mono. }
  destruct (Json.getitem "filename" entry) as [v|] eqn:Hname; [|done].
  rewrite bind_lift_Some. destruct v as [| | | |new_name| |]; try done.
  intros H. apply bind_Some in H as ([fs' new_id] & Hc & Hr & ->).
  apply copy_and_post_spec in Hc as [Hsub Hpost].
  destruct HI as [HI1 HI2]. destruct new_id as [new_id|]; cbn in Hr; injection Hr as <-.
  - cbn [trace fst]. rewrite app_nil_r. split; [cbn; by etrans|].
    cbn [fst]. intros o Ho. apply elem_of_keys_store in Ho as [->|Ho].
    + split; [done|]. exists entry, new_name.
      destruct Hpost as (_ & _ & Hp & H200); [done|].
      repeat split; try done. apply elem_of_app. by right.
    + destruct (HI2 o Ho) as (? & e & n & ? & ? & ? & ?). split; [done|].
      exists e, n. repeat split; try done. apply elem_of_app. by left.
  - cbn [trace fst]. rewrite app_nil_r.
    apply upload_inv_mono. split; [cbn; by etrans|done].
Qed.

(** X4. When [upload_attachments_from_backup] returns, every old id that
    has an entry in the mapping is one of the missing ids, has metadata
    with a file name, and a file was posted under that name and answered
    200; no file of the directory has disappeared. *)
Theorem X4_uploaded_mapping_sound (uploaded : list (string * json)) (fs' : gset string) :
  result (upload_attachments_from_backup xray os missing_ids backup_dir
            attachments_database fs0) = Some (uploaded, fs') ->
  fs0 ⊆ fs'
  /\ forall old_id, old_id ∈ map fst uploaded ->
       old_id ∈ missing_ids
       /\ exists entry new_name,
            Json.lookup old_id attachments_database = Some entry
            /\ Json.getitem "filename" entry = Some (JStr new_name)
            /\ PostAttachment new_name
                 ∈ trace (upload_attachments_from_backup xray os missing_ids backup_dir
                            attachments_database fs0)
            /\ fst (post_attachment xray new_name) = 200.
Proof.
  unfold upload_attachments_from_backup. rewrite bind_emit. cbn [result trace fst snd].
  intros H. apply bind_Some in H as ([u f] & H1 & H2 & ->).
  rewrite bind_emit in H2. cbn in H2. injection H2 as <- <-.
  rewrite bind_emit. cbn [trace fst].
  assert (HI : upload_inv ([Say Info "Uploading missing attachments"]
                 ++ trace (fold_run (upload_one xray os backup_dir attachments_database)
                             ([], fs0) missing_ids)) (u, f)).
  { apply (fold_run_inv_in upload_inv); [| |done].
    - intros. by apply upload_one_inv.
    - split; [done|]. intros o Ho. inversion Ho. }
  destruct HI as [HI1 HI2]. split; [done|]. intros o Ho.
  destruct (HI2 o Ho) as (? & e & n & ? & ? & Hp & ?). split; [done|].
  exists e, n. repeat split; try done.
  cbn [app] in Hp. apply elem_of_cons in Hp as [?|Hp]; [done|].
  right. apply elem_of_app. by left.
Qed.

Lemma upload_one_no_metadata acc old_id :
  Json.lookup old_id attachments_database = None ->
  upload_one xray os backup_dir attachments_database acc old_id
  = ([Say Error ("Error not exist " +:+ old_id)], Some acc).
Proof. intros H. destruct acc. unfold upload_one. by rewrite H, bind_emit. Qed.

Lemma fold_upload_no_metadata (l : list string) :
  (forall old_id, old_id ∈ l -> Json.lookup old_id attachments_database = None) ->
  fold_run (upload_one xray os backup_dir attachments_database) ([], fs0) l
  = (map (fun old_id => Say Error ("Error not exist " +:+ old_id)) l, Some ([], fs0)).
Proof.
  induction l as [|x l IH]; intros H; [done|].
  cbn [fold_run]. rewrite upload_one_no_metadata by (apply H; by left).
  unfold mbind, run_bind, bind. rewrite IH; [done|].
  intros o Ho. apply H. by right.
Qed.

(** X5. When no missing id has an entry in the attachment database,
    [upload_attachments_from_backup] copies and posts nothing: it reports
    one error for each id, returns the empty mapping, and leaves the
    files as they are. *)
Theorem X5_no_metadata_nothing_uploaded :
  (forall old_id, old_id ∈ missing_ids ->
                  Json.lookup old_id attachments_database = None) ->
  upload_attachments_from_backup xray os missing_ids backup_dir attachments_database fs0
  = (Say Info "Uploading missing attachments"
       :: map (fun old_id => Say Error ("Error not exist " +:+ old_id)) missing_ids
       ++ [Say Success "Uploading attachments completed, uploaded 0 attachments"],
     Some ([], fs0)).
Proof.
  intros H. unfold upload_attachments_from_backup. rewrite bind_emit.
  rewrite (fold_upload_no_metadata _ H). reflexivity.
Qed.

End UploadProps.

Lemma X4_uploaded_mapping_sound_witness :
  Exporter.result (Exporter.upload_attachments_from_backup Fixtures.xray0 Fixtures.os0
                     ["aa"; "dd"] "att" Fixtures.attachments_db0 {[ "att/aa" ]})
  = Some ([("aa", JStr "e5")], {[ "att/aa" ]} ∪ {[ "att/img.png" ]})
  /\ ({[ "att/aa" ]} : gset string) ⊆ {[ "att/aa" ]} ∪ {[ "att/img.png" ]}.
Proof.
  assert (H : Exporter.result (Exporter.upload_attachments_from_backup Fixtures.xray0
                 Fixtures.os0 ["aa"; "dd"] "att" Fixtures.attachments_db0 {[ "att/aa" ]})
              = Some ([("aa", JStr "e5")], {[ "att/aa" ]} ∪ {[ "att/img.png" ]}))
    by (vm_compute; reflexivity).
  split; [exact H|].
  apply (X4_uploaded_mapping_sound Fixtures.xray0 Fixtures.os0 "att"
           Fixtures.attachments_db0 ["aa"; "dd"] {[ "att/aa" ]} _ _ H).
Defined.

Lemma X5_no_metadata_nothing_uploaded_witness :
  (forall old_id, old_id ∈ ["dd"] -> Json.lookup old_id Fixtures.attachments_db0 = None)
  /\ Exporter.result (Exporter.upload_attachments_from_backup Fixtures.xray0 Fixtures.os0
                        ["dd"] "att" Fixtures.attachments_db0 ∅)
     = Some ([], ∅).
Proof.
  assert (H : forall old_id, old_id ∈ ["dd"] ->
                             Json.lookup old_id Fixtures.attachments_db0 = None).
  { intros o Ho. apply list_elem_of_singleton in Ho as ->. reflexivity. }
  split; [exact H|].
  by rewrite (X5_no_metadata_nothing_uploaded Fixtures.xray0 Fixtures.os0 "att"
                Fixtures.attachments_db0 ["dd"] ∅ H).
Defined.

(** ** The update of the markers *)

Section Remap.

Import Exporter.

Lemma prefix_app_l (a b s : string) :
  String.prefix (a +:+ b) s = true -> String.prefix a s = true.
Proof.
  revert s. induction a as [|c a IH]; intros s; [by destruct s|].
  destruct s as [|c' s]; [done|]. simpl.
  destruct (Ascii.ascii_dec c c'); [apply IH|done].
Qed.

Lemma sub_literal_absent (a b new s : string) (bol : bool) :
  Py.contains a s = false ->
  Re.sub_from (Re.literal (a +:+ b) new) bol 0 s = s.
Proof.
  revert bol. induction s as [|c s IH]; intros bol H; [done|].
  unfold Py.contains in H; fold Py.contains in H.
  apply orb_false_iff in H as [Hp Hs].
  cbn [Re.sub_from]. unfold Re.literal at 1.
  destruct (String.prefix (a +:+ b) (String c s)) eqn:E.
  - apply prefix_app_l in E. congruence.
  - f_equal. by apply IH.
Qed.

Lemma remap_content_absent (repr : json -> string) (m : list (string * json))
    (text : string) :
  Py.contains "xray-attachment://" text = false ->
  remap_content repr m (JStr text) = Some (JStr text).
Proof.
  intros H. unfold remap_content. induction m as [|[old_id new_id] m IH]; [done|].
  cbn [foldM].
  change (str_replace ("xray-attachment://" +:+ old_id)
            ("xray-attachment://" +:+ Json.str repr new_id) text)
    with (Re.sub_from (Re.literal ("xray-attachment://" +:+ old_id)
                         ("xray-attachment://" +:+ Json.str repr new_id)) true 0 text).
  by rewrite sub_literal_absent.
Qed.

Lemma lookup_store_eq (k : string) (v : json) (kvs : list (string * json)) :
  Json.lookup k (Json.store k v kvs) = Some v.
Proof.
  induction kvs as [|[k' v'] kvs IH]; simpl.
  - by rewrite String.eqb_refl.
  - destruct (String.eqb_spec k k') as [->|Hne]; simpl.
    + by rewrite String.eqb_refl.
    + by destruct (String.eqb_spec k k').
Qed.

Lemma lookup_store_ne (k k' : string) (v : json) (kvs : list (string * json)) :
  k <> k' -> Json.lookup k (Json.store k' v kvs) = Json.lookup k kvs.
Proof.
  intros Hne. induction kvs as [|[k1 v1] kvs IH]; simpl.
  - by destruct (String.eqb_spec k k').
  - destruct (String.eqb_spec k' k1) as [->|Hne1]; simpl.
    + by destruct (String.eqb_spec k k1).
    + by rewrite IH.
Qed.

Lemma store_same (k : string) (v : json) (kvs : list (string * json)) :
  Json.lookup k kvs = Some v -> Json.store k v kvs = kvs.
Proof.
  induction kvs as [|[k' v'] kvs IH]; simpl; [done|].
  destruct (String.eqb_spec k k') as [->|Hne].
  - by intros [= ->].
  - intros H. by rewrite IH.
Qed.

Variable repr : json -> string.
Variable uploaded_mapping : list (string * json).

(** One field of [remap_step]. *)
Definition remap_field (step : json) (field : string) : raises json :=
  match Json.get_default field (JStr EmptyString) step with
  | Some content =>
      match remap_content repr uploaded_mapping content with
      | Some content' => Json.set field content' step
      | None => None
      end
  | None => None
  end.

Lemma remap_field_keys step field step' :
  remap_field step field = Some step' ->
  exists kvs kvs', step = JObj kvs /\ step' = JObj kvs'
    /\ is_Some (Json.lookup field kvs')
    /\ forall k, is_Some (Json.lookup k kvs) -> is_Some (Json.lookup k kvs').
Proof.
  unfold remap_field. destruct step as [| | | | | |kvs]; try done. simpl.
  destruct (remap_content _ _ _) as [c|]; [|done]. intros [= <-].
  exists kvs, (Json.store field c kvs). repeat split.
  - by rewrite lookup_store_eq.
  - intros k Hk. destruct (String.eqb_spec k field) as [->|Hne].
    + by rewrite lookup_store_eq.
    + by rewrite lookup_store_ne.
Qed.

Lemma remap_step_fields step step' :
  remap_step repr uploaded_mapping step = Some step' ->
  forall field, field ∈ step_fields -> is_Some (Json.getitem field step').
Proof.
  unfold remap_step, step_fields. cbn [foldM]. fold (remap_field step "action").
  destruct (remap_field step "action") as [s1|] eqn:E1; [|done].
  fold (remap_field s1 "data").
  destruct (remap_field s1 "data") as [s2|] eqn:E2; [|done].
  fold (remap_field s2 "result").
  destruct (remap_field s2 "result") as [s3|] eqn:E3; [|done].
  intros [= <-].
  apply remap_field_keys in E1 as (k0 & k1 & -> & -> & Ha & _).
  apply remap_field_keys in E2 as (? & k2 & [= <-] & -> & Hd & H12).
  apply remap_field_keys in E3 as (? & k3 & [= <-] & -> & Hr & H23).
  intros field Hf. cbn [Json.getitem].
  repeat (apply elem_of_cons in Hf as [->|Hf]); auto. inversion Hf.
Qed.

(** X6. [update_attachments_with_new_ids], when it returns, gives as many
    tests as it got, and in each of them every step of a list of steps has
    the three fields action, data and result, a field that was absent
    being added. *)
Theorem X6_update_keeps_shape (data data' : list json) :
  update_attachments_with_new_ids repr data uploaded_mapping = Some data' ->
  length data' = length data
  /\ Forall (fun test' =>
       forall steps', Json.getitem "steps" test' = Some (JList steps') ->
         Forall (fun step' => forall field, field ∈ step_fields ->
                                is_Some (Json.getitem field step')) steps') data'.
Proof.
  unfold update_attachments_with_new_ids. intros H. apply mapM_Some in H.
  split; [symmetry; by eapply Forall2_length|].
  induction H as [|test test' data data' Ht _ IH]; constructor; [|done].
  clear IH. unfold remap_test in Ht.
  destruct (Json.get_default "steps" (JList []) test) as [v|] eqn:Hg; [|done].
  destruct v as [| | | |str|steps|kvs]; try done.
  - destruct str; [|done]. injection Ht as <-. intros steps' Hs.
    destruct test as [| | | | | |tk]; try done. simpl in Hg, Hs.
    rewrite Hs in Hg. by injection Hg.
  - destruct (mapM (remap_step repr uploaded_mapping) steps) as [steps1|] eqn:Hm; [|done].
    apply mapM_Some in Hm.
    destruct test as [| | | | | |tk]; try done. cbn [Json.getitem] in Ht.
    destruct (Json.lookup "steps" tk) eqn:Hl.
    + cbn in Ht. injection Ht as <-. intros steps' Hs. cbn in Hs.
      rewrite lookup_store_eq in Hs. injection Hs as <-.
      apply Forall_forall. intros step' Hin.
      apply list_elem_of_lookup in Hin as [i Hi].
      destruct (Forall2_lookup_r _ _ _ _ _ Hm Hi) as (step & _ & Hstep).
      by eapply remap_step_fields.
    + injection Ht as <-. intros steps' Hs. cbn in Hs. congruence.
  - destruct kvs; [|done]. injection Ht as <-. intros steps' Hs.
    destruct test as [| | | | | |tk]; try done. simpl in Hg, Hs.
    rewrite Hs in Hg. by injection Hg.
Qed.

(** A step whose three fields are texts in which "xray-attachment://"
    does not occur, and a test whose steps are a list of such steps. *)
Definition marker_free_step (step : json) : Prop :=
  exists kvs, step = JObj kvs
    /\ forall field, field ∈ step_fields ->
         exists text, Json.lookup field kvs = Some (JStr text)
                      /\ Py.contains "xray-attachment://" text = false.

Definition marker_free_test (test : json) : Prop :=
  exists kvs steps, test = JObj kvs
    /\ Json.lookup "steps" kvs = Some (JList steps)
    /\ Forall marker_free_step steps.

Lemma remap_field_marker_free kvs field :
  (exists text, Json.lookup field kvs = Some (JStr text)
                /\ Py.contains "xray-attachment://" text = false) ->
  remap_field (JObj kvs) field = Some (JObj kvs).
Proof.
  intros (text & Hl & Hc). unfold remap_field. simpl. rewrite Hl.
  rewrite remap_content_absent by done. simpl. by rewrite store_same.
Qed.

Lemma remap_step_marker_free step :
  marker_free_step step -> remap_step repr uploaded_mapping step = Some step.
Proof.
  intros (kvs & -> & H). unfold remap_step, step_fields. cbn [foldM].
  fold (remap_field (JObj kvs) "action").
  rewrite remap_field_marker_free by (apply H; unfold step_fields; repeat constructor).
  fold (remap_field (JObj kvs) "data").
  rewrite remap_field_marker_free by (apply H; unfold step_fields; repeat constructor).
  fold (remap_field (JObj kvs) "result").
  by rewrite remap_field_marker_free by (apply H; unfold step_fields; repeat constructor).
Qed.

Lemma mapM_id {A} (f : A -> option A) (l : list A) :
  Forall (fun x => f x = Some x) l -> mapM f l = Some l.
Proof.
  intros H. apply mapM_Some. induction H; constructor; done.
Qed.

(** X7. A payload in which every test has a list of steps whose action,
    data and result are texts without "xray-attachment://" is returned
    unchanged by [update_attachments_with_new_ids], whatever the mapping. *)
Theorem X7_marker_free_payload_unchanged (data : list json) :
  Forall marker_free_test data ->
  update_attachments_with_new_ids repr data uploaded_mapping = Some data.
Proof.
  intros H. unfold update_attachments_with_new_ids. apply mapM_id.
  eapply Forall_impl; [exact H|]. intros test (kvs & steps & -> & Hl & Hs).
  unfold remap_test. simpl. rewrite Hl.
  rewrite mapM_id.
  - simpl. by rewrite store_same.
  - eapply Forall_impl; [exact Hs|]. apply remap_step_marker_free.
Qed.

End Remap.

Lemma X6_update_keeps_shape_witness :
  Exporter.update_attachments_with_new_ids (fun _ => "") Fixtures.payload_short
    [("aa", JStr "e5")]
  = Some [ JObj [("key", JStr "PROJ-3");
                 ("steps", JList [ JObj [("action", JStr "See !xray-attachment://e5!");
                                         ("data", JStr ""); ("result", JStr "")] ])] ]
  /\ length [ JObj [("key", JStr "PROJ-3");
                    ("steps", JList [ JObj [("action", JStr "See !xray-attachment://e5!");
                                            ("data", JStr ""); ("result", JStr "")] ])] ]
     = length Fixtures.payload_short.
Proof.
  split; [reflexivity|].
  apply (X6_update_keeps_shape (fun _ => "") [("aa", JStr "e5")]
           Fixtures.payload_short _ eq_refl).
Defined.

Lemma X7_marker_free_payload_unchanged_witness :
  Forall marker_free_test Fixtures.payload_plain
  /\ Exporter.update_attachments_with_new_ids (fun _ => "") Fixtures.payload_plain
       [("aa", JStr "e5")]
     = Some Fixtures.payload_plain.
Proof.
  assert (H : Forall marker_free_test Fixtures.payload_plain).
  { repeat constructor. eexists _, _. split; [reflexivity|]. split; [reflexivity|].
    repeat constructor. eexists. split; [reflexivity|].
    intros field Hf. unfold Exporter.step_fields in Hf.
    repeat (apply elem_of_cons in Hf as [->|Hf]);
      try (eexists; split; reflexivity). inversion Hf. }
  split; [exact H|].
  apply (X7_marker_free_payload_unchanged (fun _ => "") [("aa", JStr "e5")] _ H).
Defined.

(** ** The polling of the import status *)

Section Polling.

Import Exporter.

Variable xray : xray_service.
Variable job_id : json.

Definition is_status_request (e : event) : bool :=
  match e with ImportStatus _ => true | _ => false end.

(** The number of status requests among the events. *)
Definition status_requests (t : list event) : nat :=
  length (List.filter is_status_request t).

Lemma status_requests_app t t' :
  status_requests (t ++ t') = status_requests t + status_requests t'.
Proof. unfold status_requests. by rewrite List.filter_app, length_app. Qed.

Lemma check_upload_status_trace n :
  trace (check_upload_status xray job_id n) = [ImportStatus job_id].
Proof.
  unfold check_upload_status. rewrite bind_emit. cbn [trace fst]. f_equal.
  destruct (import_status xray n) as [code body].
  destruct (code =? 200)%nat; [|done].
  destruct body as [data|]; [|done].
  destruct (Json.get "status" data) as [status|]; [|done].
  rewrite bind_lift_Some.
  by repeat (match goal with |- context [if ?b then _ else _] => destruct b end).
Qed.

Lemma bind_trace {A B} (c : run A) (k : A -> run B) :
  trace (c ≫= k)
  = trace c ++ match result c with Some a => trace (k a) | None => [] end.
Proof.
  unfold mbind, run_bind, bind, trace, result. destruct c as [t [a|]]; simpl.
  - by destruct (k a).
  - by rewrite app_nil_r.
Qed.

Lemma bind_result {A B} (c : run A) (k : A -> run B) :
  result (c ≫= k) = match result c with Some a => result (k a) | None => None end.
Proof.
  unfold mbind, run_bind, bind, result. destruct c as [t [a|]]; simpl; [|done].
  by destruct (k a).
Qed.

Lemma poll_bound remaining n :
  status_requests (trace (poll xray job_id remaining n)) <= remaining.
Proof.
  revert n. induction remaining as [|r IH]; intros n; [done|].
  cbn [poll]. rewrite bind_trace, check_upload_status_trace.
  rewrite status_requests_app. change (status_requests [ImportStatus job_id]) with 1.
  destruct (result (check_upload_status xray job_id n)) as [[msg final]|]; [|unfold status_requests; simpl; lia].
  rewrite bind_emit. cbn [trace fst].
  specialize (IH (S n)). destruct final.
  - unfold status_requests. simpl. lia.
  - unfold status_requests in *. cbn [List.filter is_status_request]. lia.
Qed.

Lemma poll_first_final k remaining n :
  k < remaining ->
  (forall i, i < k -> exists msg,
     result (check_upload_status xray job_id (n + i)) = Some (msg, false)) ->
  (exists msg, result (check_upload_status xray job_id (n + k)) = Some (msg, true)) ->
  result (poll xray job_id remaining n) = Some tt
  /\ status_requests (trace (poll xray job_id remaining n)) = k + 1.
Proof.
  revert remaining n. induction k as [|k IH]; intros remaining n Hk Hnot Hfin.
  - destruct remaining as [|r]; [lia|]. destruct Hfin as [msg Hfin].
    rewrite Nat.add_0_r in Hfin. cbn [poll].
    rewrite bind_result, bind_trace, check_upload_status_trace, Hfin.
    rewrite bind_emit. cbn. done.
  - destruct remaining as [|r]; [lia|].
    destruct (Hnot 0 ltac:(lia)) as [msg H0]. rewrite Nat.add_0_r in H0.
    cbn [poll]. rewrite bind_result, bind_trace, check_upload_status_trace, H0.
    rewrite bind_emit. cbn [result trace fst snd].
    destruct (IH r (S n)) as [IH1 IH2]; [lia| | |].
    + intros i Hi. replace (S n + i) with (n + S i) by lia. apply Hnot. lia.
    + replace (S n + k) with (n + S k) by lia. done.
    + split; [done|]. rewrite status_requests_app.
      change (status_requests [ImportStatus job_id]) with 1.
      unfold status_requests in *. cbn [List.filter is_status_request]. lia.
Qed.

(** X8. The polling after a submission sends at most 100 status requests;
    when the answer to request number k (counted from 0, k below 100) is
    the first final one, it ends normally after exactly k + 1 requests. *)
Theorem X8_poll_stops_at_first_final :
  status_requests (trace (poll_upload xray job_id)) <= 100
  /\ forall k, k < 100 ->
       (forall i, i < k -> exists msg,
          result (check_upload_status xray job_id i) = Some (msg, false)) ->
       (exists msg, result (check_upload_status xray job_id k) = Some (msg, true)) ->
       result (poll_upload xray job_id) = Some tt
       /\ status_requests (trace (poll_upload xray job_id)) = k + 1.
Proof.
  split; [apply poll_bound|]. intros k Hk Hnot Hfin. by apply poll_first_final.
Qed.

End Polling.

Lemma X8_poll_stops_at_first_final_witness :
  2 < 100
  /\ Exporter.result (Exporter.poll_upload Fixtures.xray0 (JStr "job-1")) = Some tt
  /\ status_requests (Exporter.trace (Exporter.poll_upload Fixtures.xray0 (JStr "job-1")))
     = 2 + 1.
Proof.
  split; [lia|].
  apply (proj2 (X8_poll_stops_at_first_final Fixtures.xray0 (JStr "job-1")) 2).
  - lia.
  - intros i Hi. exists "Export Status: Still In Progress".
    destruct i as [|[|i]]; [reflexivity|reflexivity|lia].
  - exists "Export Completed". reflexivity.
Defined.

(** ** The confirmation wizard *)

Section Wizard.

Import Exporter.

Variable repr : json -> string.
Variable jira : tracker.

(** X9. In manual mode a test whose key is empty (or otherwise falsy)
    blocks the wizard: whatever the operator does, and however often, no
    request is sent, and the session, cursor included, stays as it is. *)
Theorem X9_manual_blocked_on_empty_key (st : session) (test_data : json)
    (current_key summary description : json) (actions : list operator) :
  test_results st !! confirm_index st = Some test_data ->
  read_test test_data = Some (current_key, summary, description) ->
  Json.truthy current_key = false ->
  manual_runs repr jira actions st = ([], Some st).
Proof.
  intros Hl Hr Hk. unfold manual_runs.
  induction actions as [|u us IH]; [done|].
  cbn [fold_run].
  assert (E : confirm_manual repr jira u st = ([], Some st)).
  { unfold confirm_manual. rewrite Hl, Hr, bind_lift_Some. by rewrite Hk. }
  rewrite E. unfold mbind, run_bind, bind. by rewrite IH.
Qed.

Lemma key_exists_bind {B} (key : string) (k : bool -> run B) :
  key_exists jira key ≫= k
  = (GetIssue key :: trace (k (issue_status jira key =? 200)%nat),
     result (k (issue_status jira key =? 200)%nat)).
Proof.
  unfold key_exists, mbind, run_bind, bind, emit, mret, run_ret, ret, trace, result.
  simpl. by destruct (k _).
Qed.

(** X10. In automatic mode, a test whose description is not a text (null,
    as for an issue without description) and whose key is empty or does
    not exist in the tracker makes the run raise: the existence check is
    the only request, no search is sent, and the cursor does not move. *)
Theorem X10_automatic_raises_on_null_description (st : session) (test_data : json)
    (key : string) (summary description : json) :
  test_results st !! confirm_index st = Some test_data ->
  read_test test_data = Some (JStr key, summary, description) ->
  (forall text, description <> JStr text) ->
  (key = EmptyString \/ issue_status jira key <> 200) ->
  confirm_automatic repr jira st
  = (match key with EmptyString => [] | _ => [GetIssue key] end, None).
Proof.
  intros Hl Hr Hd Hk. unfold confirm_automatic. rewrite Hl, Hr, bind_lift_Some.
  assert (Hfind : find_jira_by_summary jira summary description = ([], None)).
  { unfold find_jira_by_summary. destruct summary; try done.
    destruct description; try done. by destruct (Hd s0). }
  destruct key as [|c key].
  - cbn [Json.truthy String.eqb negb]. rewrite bind_ret. by rewrite Hfind.
  - cbn [Json.truthy String.eqb negb Json.str].
    destruct Hk as [?|Hk]; [done|].
    apply Nat.eqb_neq in Hk. rewrite key_exists_bind, Hk. by rewrite Hfind.
Qed.

End Wizard.

Lemma X9_manual_blocked_on_empty_key_witness :
  Exporter.manual_runs (fun _ => "") Fixtures.jira0
    [ {| Exporter.manual_input := "proj-1"; Exporter.clicked := None |};
      {| Exporter.manual_input := "proj-1"; Exporter.clicked := Some Exporter.Next |} ]
    (Fixtures.session_of [Fixtures.test_without_key])
  = ([], Some (Fixtures.session_of [Fixtures.test_without_key])).
Proof.
  apply (X9_manual_blocked_on_empty_key (fun _ => "") Fixtures.jira0
           (Fixtures.session_of [Fixtures.test_without_key]) Fixtures.test_without_key
           (JStr "") (JStr "Login") (JStr "Steps") _ eq_refl eq_refl eq_refl).
Defined.

Lemma X10_automatic_raises_on_null_description_witness :
  Exporter.confirm_automatic (fun _ => "") Fixtures.jira0
    (Fixtures.session_of [Fixtures.test_null_description])
  = ([Exporter.GetIssue "OLD-7"], None).
Proof.
  apply (X10_automatic_raises_on_null_description (fun _ => "") Fixtures.jira0
           (Fixtures.session_of [Fixtures.test_null_description])
           Fixtures.test_null_description "OLD-7" (JStr "Login") JNull eq_refl eq_refl).
  - intros text H. discriminate H.
  - right. simpl. lia.
Defined.

(** ** Waiting for the backup and querying the tracker *)

Section BackupProps.

Import BackupJob.

Lemma wait_working_cons (a : nat * option json) (rest : list (nat * option json)) :
  is_working a = true ->
  wait_for_backup (a :: rest)
  = (S (fst (wait_for_backup rest)), snd (wait_for_backup rest)).
Proof.
  destruct a as [code [result|]]; [|done]. unfold is_working.
  intros [Hc Hw]%andb_true_iff. apply negb_true_iff in Hc.
  cbn [wait_for_backup]. rewrite Hc.
  unfold status_is in *.
  destruct (Json.get "status" result) as [[| | | |s| |]|]; try done.
  apply String.eqb_eq in Hw. subst s.
  cbn. by destruct (wait_for_backup rest).
Qed.

Lemma wait_not_working (a : nat * option json) (rest : list (nat * option json)) :
  is_working a = false ->
  wait_for_backup (a :: rest) = wait_for_backup [a]
  /\ fst (wait_for_backup [a]) = 1
  /\ snd (wait_for_backup [a]) <> StillWorking.
Proof.
  destruct a as [code [result|]]; unfold is_working; cbn [wait_for_backup].
  - destruct (is_error code); [done|]. cbn [negb andb].
    destruct (Json.get "status" result) as [v|] eqn:E; [|done].
    destruct (status_is result "successful"); [done|].
    intros ->. done.
  - by destruct (is_error code).
Qed.

(** X11. [wait_for_backup] asks again for as long as the answers say
    "working", without bound, and ends at the first answer that does not:
    after k such answers it has made exactly k + 1 requests, its outcome
    (the result or an exception) is decided by that answer alone, and the
    answers behind it are never asked for. *)
Theorem X11_wait_ends_at_first_other_answer
    (ws : list (nat * option json)) (a : nat * option json)
    (rest : list (nat * option json)) :
  Forall (fun w => is_working w = true) ws ->
  is_working a = false ->
  wait_for_backup ws = (length ws, StillWorking)
  /\ wait_for_backup (ws ++ a :: rest)
     = (length ws + 1, snd (wait_for_backup [a]))
  /\ snd (wait_for_backup [a]) <> StillWorking.
Proof.
  intros Hws Ha. destruct (wait_not_working a rest Ha) as (E & E1 & E2).
  repeat split; [| |done].
  - induction Hws as [|w ws Hw _ IH]; [done|].
    by rewrite wait_working_cons, IH.
  - induction Hws as [|w ws Hw _ IH].
    + simpl app. rewrite E. destruct (wait_for_backup [a]). simpl in *. by subst.
    + cbn [app]. by rewrite wait_working_cons, IH.
Qed.

Lemma X11_wait_ends_at_first_other_answer_witness :
  wait_for_backup
    ([(200, Some (JObj [("status", JStr "working")]))]
     ++ (200, Some (JObj [("status", JStr "successful")]))
     :: [(500, None)])
  = (1 + 1, Completed (JObj [("status", JStr "successful")])).
Proof.
  apply (proj1 (proj2 (X11_wait_ends_at_first_other_answer
    [(200, Some (JObj [("status", JStr "working")]))]
    (200, Some (JObj [("status", JStr "successful")])) [(500, None)]
    ltac:(repeat constructor) eq_refl))).
Defined.





End BackupProps.

(** ** The export of the selected tests *)

Section ExportProps.

Import Exporter.

Variable repr : json -> string.

Ltac raises_cases H :=
  unfold mbind, raises_bind, option_bind in H;
  repeat match type of H with
         | match ?x with _ => _ end = Some _ =>
             let E := fresh "E" in destruct x eqn:E; [|discriminate H]
         end.

Lemma export_test_key items flattened_testsets key test_id test t :
  export_test items flattened_testsets key test_id test = Some t ->
  Json.getitem "key" t = Some (JStr key).
Proof.
  intros H. unfold export_test in H. raises_cases H.
  injection H as <-. cbn [Json.getitem].
  match goal with |- context [match ?l with _ => _ end] => by destruct l end.
Qed.

Lemma export_one_key items key_to_id id_to_test flattened_testsets key t :
  export_one items key_to_id id_to_test flattened_testsets key = Some (Some t) ->
  Json.getitem "key" t = Some (JStr key)
  /\ exists test_id test,
       Json.lookup key key_to_id = Some (JStr test_id)
       /\ test_id <> EmptyString
       /\ Json.lookup test_id id_to_test = Some test.
Proof.
  unfold export_one. destruct (Json.lookup key key_to_id) as [[| | | |test_id| |]|]; try done.
  destruct test_id as [|c test_id]; [done|].
  destruct (Json.lookup (String c test_id) id_to_test) as [test|] eqn:Ht; [|done].
  unfold fmap, raises_fmap.
  destruct (export_test _ _ _ _ _) as [t'|] eqn:E; [|done].
  intros [= <-]. split; [by eapply export_test_key|].
  exists (String c test_id), test. done.
Qed.

Lemma foldM_inv {A B} (P : B -> Prop) (f : B -> A -> raises B) (l : list A) b b' :
  P b -> (forall b x b', x ∈ l -> P b -> f b x = Some b' -> P b') ->
  foldM f b l = Some b' -> P b'.
Proof.
  revert b. induction l as [|x l IH]; intros b HP Hf; simpl.
  - by intros [= <-].
  - destruct (f b x) as [b1|] eqn:E; [|done]. apply IH.
    + eapply Hf; [by left|done|done].
    + intros b2 y b3 Hy. apply Hf. by right.
Qed.

Lemma lookup_store_Some (k k' : string) (v x : json) (kvs : list (string * json)) :
  Json.lookup k (Json.store k' v kvs) = Some x ->
  (k = k' /\ x = v) \/ Json.lookup k kvs = Some x.
Proof.
  destruct (String.eqb_spec k k') as [->|Hne].
  - rewrite lookup_store_eq. intros [= <-]. by left.
  - rewrite lookup_store_ne by done. by right.
Qed.

Lemma key_to_id_sound items key_to_id key v :
  key_to_id_of items = Some key_to_id ->
  Json.lookup key key_to_id = Some v ->
  exists tid meta, v = JStr tid /\ (tid, meta) ∈ items
                   /\ Json.get "key" meta = Some (JStr key).
Proof.
  intros H. revert key v. unfold key_to_id_of in H.
  eapply (foldM_inv (fun acc => forall key v, Json.lookup key acc = Some v ->
            exists tid meta, v = JStr tid /\ (tid, meta) ∈ items
                             /\ Json.get "key" meta = Some (JStr key))); [| |exact H].
  - done.
  - intros acc [tid meta] acc' Hin HP Hstep.
    destruct (Json.get "key" meta) as [k|] eqn:Hk; [|done].
    destruct (Json.truthy k); [|by injection Hstep as <-].
    destruct k as [| | | |ks| |]; cbn in Hstep; try (injection Hstep as <-; done); try done.
    injection Hstep as <-. intros key v Hl.
    apply lookup_store_Some in Hl as [[-> ->]|Hl]; [|by apply HP].
    by exists tid, meta.
Qed.

Lemma id_to_test_sound all_tests id_to_test tid test :
  id_to_test_of repr all_tests = Some id_to_test ->
  Json.lookup tid id_to_test = Some test ->
  test ∈ all_tests
  /\ exists id, Json.get "id" test = Some id /\ id <> JNull /\ Json.str repr id = tid.
Proof.
  intros H. revert tid test. unfold id_to_test_of in H.
  eapply (foldM_inv (fun acc => forall tid test, Json.lookup tid acc = Some test ->
            test ∈ all_tests
            /\ exists id, Json.get "id" test = Some id /\ id <> JNull
                          /\ Json.str repr id = tid)); [| |exact H].
  - done.
  - intros acc t acc' Hin HP Hstep. cbn beta in Hstep.
    destruct (Json.get "id" t) as [id|] eqn:Hid; [|done].
    assert (Hcase : id = JNull /\ acc' = acc
                    \/ id <> JNull /\ acc' = Json.store (Json.str repr id) t acc).
    { destruct id; injection Hstep as <-; try (right; done). by left. }
    destruct Hcase as [[_ ->]|[Hne ->]]; [done|].
    intros tid test Hl.
    apply lookup_store_Some in Hl as [[-> ->]|Hl]; [|by apply HP].
    split; [done|]. by exists id.
Qed.

Lemma exported_keys items key_to_id id_to_test flattened_testsets
    (selected_keys : list string) (rs : list (option json)) :
  Forall2 (fun key r =>
             export_one items key_to_id id_to_test flattened_testsets key = Some r)
          selected_keys rs ->
  exists ks, mapM (Json.getitem "key") (omap id rs) = Some (JStr <$> ks)
    /\ sublist ks selected_keys
    /\ forall k, k ∈ ks ->
         exists test_id test,
           Json.lookup k key_to_id = Some (JStr test_id)
           /\ Json.lookup test_id id_to_test = Some test.
Proof.
  induction 1 as [|key r keys rs Hr _ (ks & Hm & Hs & Hk)].
  - exists []. repeat split; [constructor|]. intros k Hin. inversion Hin.
  - destruct r as [t|].
    + apply export_one_key in Hr as (Hkey & test_id & test & H1 & _ & H2).
      exists (key :: ks). repeat split.
      * cbn. rewrite Hkey. cbn. by rewrite Hm.
      * by constructor.
      * intros k [->|Hin]%elem_of_cons; [by exists test_id, test|by apply Hk].
    + exists ks. repeat split; [done|by constructor|done].
Qed.

(** X14. When [export_to_xray_format] returns, the keys of the exported
    tests, in order, are a sublist of the selected keys (so nothing is
    exported that was not selected, and at most one test for each
    selection); each exported key is the "key" of a metadata entry whose
    id is the text of the "id" of one of the tests. A selected key
    without such an entry or test is left out without any message. *)
Theorem X14_exported_keys_are_selected (selected_keys : list string)
    (all_tests : list json) (jira_metadata : json)
    (flattened_datasets flattened_testplans flattened_testsets exported : list json) :
  export_to_xray_format repr selected_keys all_tests jira_metadata
    flattened_datasets flattened_testplans flattened_testsets = Some exported ->
  exists ks, mapM (Json.getitem "key") exported = Some (JStr <$> ks)
    /\ sublist ks selected_keys
    /\ forall k, k ∈ ks ->
         exists items tid meta test id,
           jira_metadata = JObj items
           /\ (tid, meta) ∈ items /\ Json.get "key" meta = Some (JStr k)
           /\ test ∈ all_tests /\ Json.get "id" test = Some id
           /\ Json.str repr id = tid.
Proof.
  intros H. unfold export_to_xray_format in H. raises_cases H.
  injection H as <-. apply mapM_Some in E2.
  destruct (exported_keys _ _ _ _ _ _ E2) as (ks & Hm & Hs & Hk).
  exists ks. repeat split; try done. intros k Hin.
  destruct (Hk k Hin) as (test_id & test & H1 & H2).
  destruct (key_to_id_sound _ _ _ _ E0 H1) as (tid & meta & [= <-] & Hin' & Hmeta).
  destruct (id_to_test_sound _ _ _ _ E1 H2) as (Ht & id & Hid & _ & Hstr).
  destruct jira_metadata; try done. injection E as <-.
  by exists kvs, test_id, meta, test, id.
Qed.

Lemma first_dataset_in test_id test_version_id flattened_datasets ds :
  first_dataset repr test_id test_version_id flattened_datasets = Some (Some ds) ->
  ds ∈ flattened_datasets
  /\ dataset_matches repr test_id test_version_id ds = Some true.
Proof.
  induction flattened_datasets as [|d rest IH]; [done|]. cbn [first_dataset].
  destruct (dataset_matches repr test_id test_version_id d) as [[|]|] eqn:E; [| |done].
  - intros [= <-]. split; [by left|done].
  - intros H. destruct (IH H). split; [by right|done].
Qed.

(** X15. Every assignment [generate_datasets] makes gives a dataset of
    the list to the truthy key of one of the tests, the dataset being one
    whose "testIssueId" is, as text, the id or the version id of that
    test: a test whose key is empty never gets a dataset. *)
Theorem X15_datasets_only_for_keyed_tests (test_results flattened_datasets : list json)
    (assigned : list (json * json)) :
  generate_datasets repr test_results flattened_datasets = Some assigned ->
  forall key ds, (key, ds) ∈ assigned ->
    Json.truthy key = true
    /\ ds ∈ flattened_datasets
    /\ exists test_data test_id test_version_id,
         test_data ∈ test_results
         /\ Json.get "key" test_data = Some key
         /\ Json.get_default "id" (JStr EmptyString) test_data = Some test_id
         /\ Json.get_default "testVersionId" (JStr EmptyString) test_data
            = Some test_version_id
         /\ dataset_matches repr test_id test_version_id ds = Some true.
Proof.
  intros H. unfold generate_datasets in H.
  eapply (foldM_inv (fun acc => forall key ds, (key, ds) ∈ acc ->
            Json.truthy key = true
            /\ ds ∈ flattened_datasets
            /\ exists test_data test_id test_version_id,
                 test_data ∈ test_results
                 /\ Json.get "key" test_data = Some key
                 /\ Json.get_default "id" (JStr EmptyString) test_data = Some test_id
                 /\ Json.get_default "testVersionId" (JStr EmptyString) test_data
                    = Some test_version_id
                 /\ dataset_matches repr test_id test_version_id ds = Some true));
    [| |exact H].
  - intros key ds Hin. inversion Hin.
  - intros acc test_data acc' Hin HP Hstep. cbn beta in Hstep.
    unfold mbind, raises_bind, option_bind in Hstep.
    destruct (Json.get "key" test_data) as [key|] eqn:Hkey; [|done].
    destruct (Json.get_default "id" _ test_data) as [test_id|] eqn:Hid; [|done].
    destruct (Json.get_default "testVersionId" _ test_data) as [tv|] eqn:Htv; [|done].
    destruct (first_dataset repr test_id tv flattened_datasets) as [[ds|]|] eqn:Hfd;
      [| |done].
    + destruct (Json.truthy key && Json.truthy ds) eqn:Ht.
      * destruct (Json.hashable key); [|done]. injection Hstep as <-.
        intros k d [Hold|Hnew]%elem_of_app; [by apply HP|].
        apply list_elem_of_singleton in Hnew. injection Hnew as -> ->.
        apply andb_true_iff in Ht as [Ht _].
        destruct (first_dataset_in _ _ _ _ Hfd) as [Hds Hm].
        repeat split; try done. by exists test_data, test_id, tv.
      * by injection Hstep as <-.
    + by injection Hstep as <-.
Qed.

End ExportProps.

Lemma X14_exported_keys_are_selected_witness :
  Exporter.export_to_xray_format (fun _ => "") ["PROJ-9"; "PROJ-1"; "PROJ-2"]
    Fixtures.tests0 Fixtures.metadata0 [] [] [] = Some Fixtures.exported0
  /\ exists ks, mapM (Json.getitem "key") Fixtures.exported0 = Some (JStr <$> ks)
                /\ sublist ks ["PROJ-9"; "PROJ-1"; "PROJ-2"].
Proof.
  assert (H : Exporter.export_to_xray_format (fun _ => "") ["PROJ-9"; "PROJ-1"; "PROJ-2"]
                Fixtures.tests0 Fixtures.metadata0 [] [] [] = Some Fixtures.exported0)
    by reflexivity.
  split; [exact H|].
  destruct (X14_exported_keys_are_selected (fun _ => "") _ _ _ _ _ _ _ H)
    as (ks & H1 & H2 & _).
  by exists ks.
Defined.

Lemma X15_datasets_only_for_keyed_tests_witness :
  Exporter.generate_datasets (fun _ => "") Fixtures.exported0 Fixtures.datasets0
  = Some [(JStr "PROJ-1", JObj [("testIssueId", JStr "101"); ("name", JStr "logins")])]
  /\ Json.truthy (JStr "PROJ-1") = true.
Proof.
  assert (H : Exporter.generate_datasets (fun _ => "") Fixtures.exported0 Fixtures.datasets0
              = Some [(JStr "PROJ-1",
                       JObj [("testIssueId", JStr "101"); ("name", JStr "logins")])])
    by reflexivity.
  split; [exact H|].
  apply (X15_datasets_only_for_keyed_tests (fun _ => "") _ _ _ H (JStr "PROJ-1")
           (JObj [("testIssueId", JStr "101"); ("name", JStr "logins")])).
  by left.
Defined.

(** ** Loading the files *)

Section Loading.

Import Exporter.

Lemma load_one_result data f :
  exists d, result (load_one data f) = Some (data ++ d)
            /\ forall data', result (load_one data' f) = Some (data' ++ d)
                             /\ trace (load_one data' f) = trace (load_one data f).
Proof.
  unfold load_one. cbv zeta. destruct (Backup.content f) as [j|].
  - destruct j as [| | | | | |kvs];
      try (exists [j]; split; [done|]; intros; done);
      try (eexists [_]; split; [reflexivity|]; intros; split; reflexivity).
    destruct (Json.lookup "tests" kvs) as [tests|].
    + destruct (Json.iter tests) as [l|].
      * exists l. split; [done|]. intros. done.
      * exists []. cbn. rewrite app_nil_r. split; [done|].
        intros. by rewrite app_nil_r.
    + eexists [_]. split; [reflexivity|]. intros. split; reflexivity.
  - exists []. cbn. rewrite app_nil_r. split; [done|].
    intros. by rewrite app_nil_r.
Qed.

Lemma load_fold_result (l : list Backup.file) data :
  exists d, result (fold_run load_one data l) = Some (data ++ d)
            /\ forall data', result (fold_run load_one data' l) = Some (data' ++ d).
Proof.
  revert data. induction l as [|f l IH]; intros data.
  - exists []. cbn. rewrite app_nil_r. split; [done|]. intros. by rewrite app_nil_r.
  - destruct (load_one_result data f) as (d1 & H1 & H1').
    destruct (IH (data ++ d1)) as (d2 & H2 & H2').
    exists (d1 ++ d2). cbn [fold_run]. split.
    + rewrite bind_result, H1, H2. by rewrite app_assoc.
    + intros data'. rewrite bind_result. destruct (H1' data') as [-> _].
      rewrite H2'. by rewrite app_assoc.
Qed.

Lemma load_one_unreadable data f :
  Backup.content f = None ->
  load_one data f = ([Say Warning ("Could not load " +:+ Backup.name f)], Some data).
Proof. intros H. unfold load_one. cbv zeta. by rewrite H, bind_emit. Qed.

Lemma load_fold_skip (l1 l2 : list Backup.file) (f : Backup.file) data :
  Backup.content f = None ->
  result (fold_run load_one data (l1 ++ f :: l2))
  = result (fold_run load_one data (l1 ++ l2))
  /\ Say Warning ("Could not load " +:+ Backup.name f)
       ∈ trace (fold_run load_one data (l1 ++ f :: l2)).
Proof.
  intros Hf. revert data. induction l1 as [|g l1 IH]; intros data.
  - cbn [app fold_run]. rewrite bind_result, bind_trace, load_one_unreadable by done.
    cbn [result trace fst snd]. split; [done|]. by left.
  - cbn [app fold_run]. rewrite !bind_result, bind_trace.
    destruct (load_one_result data g) as (d & Hd & _). rewrite Hd.
    destruct (IH (data ++ d)) as [E Hin]. split; [done|].
    apply elem_of_app. by right.
Qed.

(** X13. [load_json_files] never raises, and a file that cannot be read
    or parsed is reported with one warning and otherwise counts for
    nothing: the data loaded are those of the other files, in order. *)
Theorem X13_unreadable_file_skipped (l1 l2 : list Backup.file) (f : Backup.file) :
  Backup.content f = None ->
  is_Some (result (load_json_files (l1 ++ f :: l2)))
  /\ result (load_json_files (l1 ++ f :: l2)) = result (load_json_files (l1 ++ l2))
  /\ Say Warning ("Could not load " +:+ Backup.name f)
       ∈ trace (load_json_files (l1 ++ f :: l2)).
Proof.
  intros Hf. unfold load_json_files.
  destruct (load_fold_result (l1 ++ f :: l2) []) as (d & Hd & _).
  split; [by rewrite Hd|]. by apply load_fold_skip.
Qed.

Lemma X13_unreadable_file_skipped_witness :
  Exporter.result (Exporter.load_json_files
                     ([Fixtures.file_a]
                      ++ {| Backup.name := "tests9.json"; Backup.content := None |}
                      :: [Fixtures.file_b]))
  = Exporter.result (Exporter.load_json_files ([Fixtures.file_a] ++ [Fixtures.file_b])).
Proof.
  apply (X13_unreadable_file_skipped [Fixtures.file_a] [Fixtures.file_b]
           {| Backup.name := "tests9.json"; Backup.content := None |} eq_refl).
Defined.

End Loading.

(** ** The project prefix of a key *)

Section ProjectPrefix.

Import Exporter.

Lemma contains_hyphen_cons (c : ascii) (s : string) :
  Py.contains "-" (String c s) = (c =? "-")%char || Py.contains "-" s.
Proof.
  unfold Py.contains; fold Py.contains. cbn [String.prefix].
  destruct (Ascii.ascii_dec "-" c) as [<-|Hne].
  - by destruct s.
  - assert ((c =? "-")%char = false) as -> by (apply Ascii.eqb_neq; congruence).
    done.
Qed.

Lemma split_hd (s : string) :
  exists w ws, Py.split "-" s = w :: ws
    /\ Py.contains "-" w = false
    /\ (Py.contains "-" s = false -> w = s)
    /\ (Py.contains "-" s = true -> exists rest, s = w +:+ "-" +:+ rest).
Proof.
  induction s as [|c s (w & ws & Hs & Hw & Hno & Hyes)].
  - exists EmptyString, []. repeat split; try done.
  - cbn [Py.split]. rewrite contains_hyphen_cons.
    destruct (Ascii.eqb_spec c "-") as [->|Hne].
    + exists EmptyString, (Py.split "-" s). repeat split; try done.
      intros _. by exists s.
    + rewrite Hs. exists (String c w), ws. rewrite contains_hyphen_cons.
      assert ((c =? "-")%char = false) as -> by by apply Ascii.eqb_neq.
      repeat split; try done.
      * intros H. by rewrite Hno.
      * intros H. destruct (Hyes H) as [rest ->]. by exists rest.
Qed.

(** X16. The project prefix taken from a key is the text before its first
    hyphen: it holds no hyphen, the key is the prefix, a hyphen and some
    rest, and without a hyphen in the key the prefix is empty. *)
Theorem X16_project_prefix_before_first_hyphen (key : string) :
  exists project_prefix,
    project_prefix_of (JStr key) = Some project_prefix
    /\ Py.contains "-" project_prefix = false
    /\ (Py.contains "-" key = false -> project_prefix = EmptyString)
    /\ (Py.contains "-" key = true ->
        exists rest, key = project_prefix +:+ "-" +:+ rest).
Proof.
  unfold project_prefix_of. cbn [Json.str_in].
  destruct (split_hd key) as (w & ws & Hs & Hw & Hno & Hyes).
  destruct (Py.contains "-" key) eqn:E.
  - exists w. rewrite Hs. cbn [hd]. repeat split; try done.
  - exists EmptyString. repeat split; try done.
Qed.

Lemma X16_project_prefix_before_first_hyphen_witness :
  Py.contains "-" "PROJ-12-3" = true
  /\ exists project_prefix,
       project_prefix_of (JStr "PROJ-12-3") = Some project_prefix
       /\ exists rest, "PROJ-12-3" = project_prefix +:+ "-" +:+ rest.
Proof.
  split; [reflexivity|].
  destruct (X16_project_prefix_before_first_hyphen "PROJ-12-3") as (p & H1 & _ & _ & H4).
  exists p. split; [exact H1|]. apply H4. reflexivity.
Defined.

End ProjectPrefix.

(** ** The metadata mapping *)

Section MetadataProps.

Import Metadata.

Variable repr : json -> string.
Variable search : string -> option (nat * option json).

(** Where an entry of the mapping comes from: an issue of the answer,
    with status 200, to the query of one of the batches. *)
Definition from_answer (bs : list (list N)) (issue_id : string) (entry : json) : Prop :=
  exists batch data issues issue,
    batch ∈ bs
    /\ search (Backup.jql_of_batch batch) = Some (200, Some data)
    /\ issues_of data = Some issues
    /\ issue ∈ issues
    /\ issue_entry repr issue = Some (issue_id, entry).

Lemma issue_entry_shape issue issue_id entry :
  issue_entry repr issue = Some (issue_id, entry) ->
  exists kvs, entry = JObj kvs
    /\ map fst kvs = ["key"; "summary"; "description"; "status"; "assignee";
                      "reporter"; "links"; "issuetype"; "comments"]
    /\ Json.lookup "key" kvs = Json.get_default "key" (JStr EmptyString) issue
    /\ (Json.str repr <$> Json.get "id" issue) = Some issue_id.
Proof.
  unfold issue_entry, mbind, raises_bind, option_bind. intros H.
  repeat match type of H with
         | match ?x with _ => _ end = Some _ =>
             let E := fresh "E" in destruct x eqn:E; [|discriminate H]
         end.
  injection H as <- <-. eexists. repeat split; reflexivity.
Qed.

Lemma add_issues_inv (P : string -> json -> Prop) (all : list json) :
  forall issues metadata,
    (forall issue, issue ∈ issues -> issue ∈ all) ->
    (forall id e, Json.lookup id metadata = Some e -> P id e) ->
    (forall issue id e, issue ∈ all -> issue_entry repr issue = Some (id, e) -> P id e) ->
    forall id e, Json.lookup id (add_issues repr metadata issues) = Some e -> P id e.
Proof.
  induction issues as [|issue rest IH]; intros metadata Hsub Hm Hall id e; [apply Hm|].
  cbn [add_issues]. destruct (issue_entry repr issue) as [[i entry]|] eqn:E; [|apply Hm].
  apply IH; [| |done].
  - intros x Hx. apply Hsub. by right.
  - intros id' e' Hl. apply lookup_store_Some in Hl as [[-> ->]|Hl]; [|by apply Hm].
    eapply Hall; [|exact E]. apply Hsub. by left.
Qed.

Lemma fold_batches_inv (bs : list (list N)) :
  forall done_ todo metadata, bs = done_ ++ todo ->
    (forall id e, Json.lookup id metadata = Some e -> from_answer bs id e) ->
    forall id e, Json.lookup id (fold_left (add_batch repr search) todo metadata) = Some e ->
                 from_answer bs id e.
Proof.
  intros done_ todo. revert done_. induction todo as [|batch todo IH];
    intros done_ metadata Hbs Hm; [apply Hm|].
  cbn [fold_left]. apply (IH (done_ ++ [batch])); [by rewrite <- app_assoc|].
  unfold add_batch.
  destruct (search (Backup.jql_of_batch batch)) as [[code [data|]]|] eqn:Hs; try apply Hm.
  destruct (Nat.eqb_spec code 200) as [->|]; [|apply Hm].
  destruct (issues_of data) as [issues|] eqn:Hi; [|apply Hm].
  apply (add_issues_inv _ issues); [done|done|].
  intros issue id e Hin He. exists batch, data, issues, issue.
  repeat split; try done. rewrite Hbs. apply elem_of_app. right. by left.
Qed.

(** X17. Every entry of the mapping [fetch_jira_metadata] returns comes
    from an issue of an answer with status 200 to the query of one of the
    batches: its key in the mapping is the text of the issue's id, and it
    has the nine fields key, summary, description, status, assignee,
    reporter, links, issuetype and comments. A batch whose request fails,
    is answered with another status or with a body that cannot be used
    adds nothing. *)
Theorem X17_metadata_entries_from_answers (ids : list string)
    (issue_id : string) (entry : json) :
  Json.lookup issue_id (fetch_jira_metadata repr search ids) = Some entry ->
  exists batch data issues issue kvs,
    batch ∈ Backup.batches (Backup.id_list ids)
    /\ search (Backup.jql_of_batch batch) = Some (200, Some data)
    /\ issues_of data = Some issues
    /\ issue ∈ issues
    /\ (Json.str repr <$> Json.get "id" issue) = Some issue_id
    /\ entry = JObj kvs
    /\ map fst kvs = ["key"; "summary"; "description"; "status"; "assignee";
                      "reporter"; "links"; "issuetype"; "comments"]
    /\ Json.lookup "key" kvs = Json.get_default "key" (JStr EmptyString) issue.
Proof.
  intros H. unfold fetch_jira_metadata in H.
  apply (fold_batches_inv _ [] _ [] eq_refl) in H; [|done].
  destruct H as (batch & data & issues & issue & Hb & Hs & Hi & Hin & He).
  destruct (issue_entry_shape _ _ _ He) as (kvs & -> & Hk & Hkey & Hid).
  by exists batch, data, issues, issue, kvs.
Qed.

End MetadataProps.

Lemma X17_metadata_entries_from_answers_witness :
  Json.lookup "101" (Metadata.fetch_jira_metadata (fun _ => "") Fixtures.search0 ["101"; "n/a"])
  = Some Fixtures.entry0
  /\ exists batch data,
       batch ∈ Backup.batches (Backup.id_list ["101"; "n/a"])
       /\ Fixtures.search0 (Backup.jql_of_batch batch) = Some (200, Some data).
Proof.
  assert (H : Json.lookup "101" (Metadata.fetch_jira_metadata (fun _ => "")
                                   Fixtures.search0 ["101"; "n/a"])
              = Some Fixtures.entry0) by (vm_compute; reflexivity).
  split; [exact H|].
  destruct (X17_metadata_entries_from_answers (fun _ => "") Fixtures.search0
              ["101"; "n/a"] "101" Fixtures.entry0 H)
    as (batch & data & _ & _ & _ & Hb & Hs & _).
  by exists batch, data.
Defined.
